(** * be_great/great.py: the GReaT pipeline object, as a shallow embedding

    The class [GReaT] of [be_great/great.py] is embedded as functions over
    an explicit object dictionary ([self.__dict__], a finite map from
    attribute names to Python values), an explicit file system, and the log
    of the calls to the generative model.  Exceptions are values of an
    error monad, and the [while] loop of [sample] runs on fuel.

    What [great.py] does with [json], [os], [warnings] and [pandas] is
    written out.  The tokenizer, the generative model, the trainer and the
    random draws are fields of the class [External], as are the helpers of
    the repository that are defined in other modules ([great_utils],
    [great_start]); where a property depends on what such a helper does, the
    helper is a definition marked as modelled from the specification. *)

From Stdlib Require Import ZArith QArith String Ascii List Bool Lia.
From Stdlib Require Import DecimalString.
From stdpp Require Import gmap strings list fin_maps.

Set Warnings "-register-all,-notation-for-abbreviation,-clear-no-such-hyp".
#[local] Open Scope string_scope.
#[local] Open Scope list_scope.

(** ** Python values *)

(** Keys of a Python [dict]: [None], booleans, integers and strings.  (A
    [float] or a tuple as a key is not modelled.) *)
Inductive pykey :=
| KNone
| KBool (b : bool)
| KInt (z : Z)
| KStr (s : string).

(** The Python values that the attributes and arguments of [GReaT] hold.
    A finite [float] is carried as the rational it denotes; it is stored and
    compared, never computed with.  [PyArray] is a one-dimensional
    [numpy.ndarray] of [float64]; [PyTokenizer] and [PyModel] are the
    [transformers] objects created by [__init__]. *)
Inductive pyval :=
| PyNone
| PyBool (b : bool)
| PyInt (z : Z)
| PyFloat (q : Q)
| PyStr (s : string)
| PyList (l : list pyval)
| PyDict (d : list (pykey * pyval))
| PyArray (a : list Q)
| PyTokenizer (llm : string)
| PyModel (llm : string) (state_dict : string).

(** ** Exceptions and the error monad *)

Inductive exn :=
| ValueError
| AssertionError
| KeyError
| TypeError
| IndexError
| AttributeError
| OSError
| FileExistsError
| FileNotFoundError
| IsADirectoryError
| RuntimeError
| UnpicklingError.

Inductive result (A : Type) :=
| Ok (a : A)
| Raise (e : exn).
Arguments Ok {A} a.
Arguments Raise {A} e.

#[global] Instance result_ret : MRet result := λ A a, Ok a.
#[global] Instance result_bind : MBind result := λ A B f r,
  match r with
  | Ok a => f a
  | Raise e => Raise e
  end.
#[global] Instance result_fmap : FMap result := λ A B f r,
  match r with
  | Ok a => Ok (f a)
  | Raise e => Raise e
  end.

(** [assert c] of Python. *)
Definition assert (c : bool) : result unit :=
  if c then Ok tt else Raise AssertionError.

(** ** Truth value testing, [isinstance], [is None] *)

Definition is_none (v : pyval) : bool :=
  match v with PyNone => true | _ => false end.
Definition is_str (v : pyval) : bool :=
  match v with PyStr _ => true | _ => false end.
Definition is_dict (v : pyval) : bool :=
  match v with PyDict _ => true | _ => false end.
Definition is_list (v : pyval) : bool :=
  match v with PyList _ => true | _ => false end.
Definition is_ndarray (v : pyval) : bool :=
  match v with PyArray _ => true | _ => false end.

Definition nonempty {A} (l : list A) : bool :=
  match l with [] => false | _ => true end.

Definition str_nonempty (s : string) : bool :=
  match s with EmptyString => false | _ => true end.

(** [bool(v)].  An [ndarray] with more than one element has no truth value
    ([ValueError]). *)
Definition truthy (v : pyval) : result bool :=
  match v with
  | PyNone => Ok false
  | PyBool b => Ok b
  | PyInt z => Ok (negb (Z.eqb z 0))
  | PyFloat q => Ok (negb (Qeq_bool q 0))
  | PyStr s => Ok (str_nonempty s)
  | PyList l => Ok (nonempty l)
  | PyDict d => Ok (nonempty d)
  | PyArray [] => Ok false
  | PyArray [q] => Ok (negb (Qeq_bool q 0))
  | PyArray _ => Raise ValueError
  | PyTokenizer _ => Ok true
  | PyModel _ _ => Ok true
  end.

(** ** The object: [self.__dict__] *)

Definition getattr (self : gmap string pyval) (name : string) : result pyval :=
  match self !! name with
  | Some v => Ok v
  | None => Raise AttributeError
  end.

Definition setattr (self : gmap string pyval) (name : string) (v : pyval)
  : gmap string pyval :=
  <[name := v]> self.

(** ** Start samplers ([be_great.great_start])

    The three classes are data here: the arguments their constructors
    receive.  Drawing start tokens from them is a service of [External]. *)
Inductive GReaTStart :=
| CategoricalStart (tokenizer start_col start_col_dist : pyval)
| ContinuousStart (tokenizer start_col start_col_dist : pyval)
| RandomStart (tokenizer all_columns : pyval).

(** [GReaT._get_start_sampler] (great.py l.246-266). *)
Definition _get_start_sampler (self : gmap string pyval)
    (start_col start_col_dist : pyval) : result GReaTStart :=
  t ← truthy start_col;
  if t && is_none start_col_dist then Raise ValueError
  else if negb (is_none start_col_dist) && negb t then Raise ValueError
  else
    assert (is_none start_col || is_str start_col);;
    assert (is_none start_col_dist || is_dict start_col_dist
            || is_list start_col_dist);;
    start_col ← (if t then Ok start_col else getattr self "conditional_col");
    td ← truthy start_col_dist;
    start_col_dist ← (if td : bool then Ok start_col_dist
                      else getattr self "conditional_col_dist");
    tokenizer ← getattr self "tokenizer";
    if is_dict start_col_dist then
      Ok (CategoricalStart tokenizer start_col start_col_dist)
    else if is_list start_col_dist then
      Ok (ContinuousStart tokenizer start_col start_col_dist)
    else
      columns ← getattr self "columns";
      Ok (RandomStart tokenizer columns).

(** ** JSON documents and the [json] module

    [json.dump] and [json.load] are modelled on document trees: what is
    written is the tree of the dumped value, and loading a file returns the
    Python value of the tree it holds.  Keys of a [dict] that are [None],
    booleans or integers are written as strings, as [json] does; an
    [ndarray], a tokenizer or a model is not serialisable ([TypeError]). *)
Inductive json :=
| JNull
| JBool (b : bool)
| JInt (z : Z)
| JFloat (q : Q)
| JStr (s : string)
| JArr (l : list json)
| JObj (o : list (string * json)).

Definition Z_to_string (z : Z) : string :=
  NilZero.string_of_int (Z.to_int z).

Definition json_key (k : pykey) : string :=
  match k with
  | KNone => "null"
  | KBool true => "true"
  | KBool false => "false"
  | KInt z => Z_to_string z
  | KStr s => s
  end.

Fixpoint to_json (v : pyval) : result json :=
  match v with
  | PyNone => Ok JNull
  | PyBool b => Ok (JBool b)
  | PyInt z => Ok (JInt z)
  | PyFloat q => Ok (JFloat q)
  | PyStr s => Ok (JStr s)
  | PyList l =>
      JArr <$> (fix items (l : list pyval) : result (list json) :=
                  match l with
                  | [] => Ok []
                  | x :: l' => j ← to_json x; js ← items l'; Ok (j :: js)
                  end) l
  | PyDict d =>
      JObj <$> (fix items (d : list (pykey * pyval))
                  : result (list (string * json)) :=
                  match d with
                  | [] => Ok []
                  | (k, x) :: d' =>
                      j ← to_json x; js ← items d'; Ok ((json_key k, j) :: js)
                  end) d
  | PyArray _ | PyTokenizer _ | PyModel _ _ => Raise TypeError
  end.

#[global] Instance pykey_eq_dec : EqDecision pykey.
Proof. solve_decision. Defined.

(** [d[k] = v] on a [dict] kept in insertion order. *)
Fixpoint dict_set (k : pykey) (v : pyval) (d : list (pykey * pyval))
  : list (pykey * pyval) :=
  match d with
  | [] => [(k, v)]
  | (k', v') :: d' =>
      if decide (k = k') then (k, v) :: d' else (k', v') :: dict_set k v d'
  end.

Definition dict_of_pairs (l : list (pykey * pyval)) : list (pykey * pyval) :=
  foldl (λ d kv, dict_set kv.1 kv.2 d) [] l.

Fixpoint of_json (j : json) : pyval :=
  match j with
  | JNull => PyNone
  | JBool b => PyBool b
  | JInt z => PyInt z
  | JFloat q => PyFloat q
  | JStr s => PyStr s
  | JArr l => PyList (map of_json l)
  | JObj o =>
      PyDict (dict_of_pairs
                (map (λ kv : string * json,
                        let (k, x) := kv in (KStr k, of_json x)) o))
  end.

(** [json.dump(attributes, f)] for the attribute dictionary of [save]. *)
Fixpoint dump_items (l : list (string * pyval)) : result (list (string * json)) :=
  match l with
  | [] => Ok []
  | (k, v) :: l' => j ← to_json v; js ← dump_items l'; Ok ((k, j) :: js)
  end.

Definition json_dumps (attributes : gmap string pyval) : result json :=
  JObj <$> dump_items (map_to_list attributes).

(** ** The file system and the state-and-exception monad *)

Inductive file :=
| FJson (j : json)
| FTorch (llm : string) (state_dict : string)
| FIncomplete.

(** Paths are canonical names; the parent of a directory that [os.mkdir]
    creates is taken to exist.  [warnings] is what [warnings.warn] emitted,
    [opened] the files opened for reading, both latest first. *)
Record fs := Fs {
  dirs : gset string;
  files : gmap string file;
  warnings : list string;
  opened : list string
}.

Definition ST (S A : Type) : Type := S → result A * S.

#[global] Instance ST_ret {S} : MRet (ST S) := λ A a s, (Ok a, s).
#[global] Instance ST_bind {S} : MBind (ST S) := λ A B f m s,
  match m s with
  | (Ok a, s') => f a s'
  | (Raise e, s') => (Raise e, s')
  end.

Definition lift {S A} (r : result A) : ST S A := λ s, (r, s).

Definition os_path_isdir (path : string) : ST fs bool :=
  λ w, (Ok (bool_decide (path ∈ dirs w)), w).

Definition warnings_warn (msg : string) : ST fs unit :=
  λ w, (Ok tt, Fs (dirs w) (files w) (msg :: warnings w) (opened w)).

Definition os_mkdir (path : string) : ST fs unit :=
  λ w, if bool_decide (path ∈ dirs w) || bool_decide (is_Some (files w !! path))
       then (Raise FileExistsError, w)
       else (Ok tt, Fs ({[path]} ∪ dirs w) (files w) (warnings w) (opened w)).

(** [open(name, "w")]: the file is created or truncated. *)
Definition open_w (name : string) : ST fs unit :=
  λ w, if bool_decide (name ∈ dirs w) then (Raise IsADirectoryError, w)
       else (Ok tt, Fs (dirs w) (<[name := FIncomplete]> (files w))
                       (warnings w) (opened w)).

Definition write_file (name : string) (c : file) : ST fs unit :=
  λ w, (Ok tt, Fs (dirs w) (<[name := c]> (files w)) (warnings w) (opened w)).

(** [open(name, "r")] (also what [torch.load] does first). *)
Definition open_r (name : string) : ST fs file :=
  λ w, if bool_decide (name ∈ dirs w) then (Raise IsADirectoryError, w)
       else match files w !! name with
            | Some c => (Ok c, Fs (dirs w) (files w) (warnings w)
                                  (name :: opened w))
            | None => (Raise FileNotFoundError, w)
            end.

(** [json.load(f)]: a file that holds no JSON document does not parse
    ([JSONDecodeError], a [ValueError]). *)
Definition json_load (c : file) : result pyval :=
  match c with
  | FJson j => Ok (of_json j)
  | _ => Raise ValueError
  end.

(** [torch.save(obj, name)] and [torch.load(name)]. *)
Definition torch_save (llm state_dict : string) (name : string) : ST fs unit :=
  open_w name;; write_file name (FTorch llm state_dict).

Definition torch_load (name : string) : ST fs (string * string) :=
  c ← open_r name;
  match c with
  | FTorch llm sd => mret (llm, sd)
  | _ => lift (Raise UnpicklingError)
  end.

(** ** Tables ([pandas.DataFrame])

    A table has column labels and rows; a row gives the cell under each
    label.  [PyNone] is the missing cell ([None] / [NaN]).  Rows carry
    distinct index labels, so dropping rows by index label drops exactly
    those rows. *)
Record DataFrame := Frame {
  df_columns : list pyval;
  df_rows : list (pyval → pyval)
}.

(** ** External services

    The libraries the pipeline calls, and the helpers of the repository that
    are defined outside [great.py].  Random draws and generation are
    indexed by the number of generation calls made so far. *)
Class External := {
  (** [torch.Tensor] and lists of token ids *)
  tensor : Type;
  (** the pretrained weights of a checkpoint name on the hub, if any *)
  hub : string → option string;
  (** [tokenizer(prompt)["input_ids"]] as a tensor *)
  tokenizer_encode : pyval → string → tensor;
  (** [tokenizer.decode] and the clean-up of [_convert_tokens_to_text] *)
  tokenizer_decode : pyval → tensor → string;
  (** [torch.unsqueeze(t, 0)], [torch.squeeze(t)], iteration over a tensor *)
  unsqueeze0 : tensor → tensor;
  squeeze : tensor → tensor;
  tensor_rows : tensor → list tensor;
  (** [model.generate(input_ids, max_length, do_sample=True, temperature,
      pad_token_id=50256)], by call number *)
  model_generate : nat → pyval → tensor → Z → Q → tensor;
  (** [great_start.get_start_tokens(k)] as a tensor, by call number *)
  get_start_tokens : nat → GReaTStart → Z → tensor;
  (** the row that [_convert_text_to_tabular_data] decodes from one text *)
  decode_row : list pyval → string → pyval → pyval;
  (** [pd.to_numeric(_, errors='coerce')] on one cell; [None] is [NaN] *)
  to_numeric : pyval → option Q;
  (** [df.select_dtypes(include=np.number)]: is the column numeric *)
  is_number_dtype : DataFrame → pyval → bool;
  (** the data that [fit] accepts besides a table *)
  ndarray2 : Type;
  (** [great_utils._array_to_dataframe(data, columns)] *)
  _array_to_dataframe : DataFrame + ndarray2 → pyval → result DataFrame;
  (** [great_utils._get_column_distribution(df, col)] *)
  _get_column_distribution : DataFrame → pyval → pyval;
  (** [GReaTTrainer(...).train(resume_from_checkpoint)]: the weights after
      training, from the model, the table and the training arguments
      [experiment_dir], [epochs], [batch_size], [train_hyperparameters] *)
  trainer_train :
    pyval → pyval → DataFrame → pyval → pyval → pyval → pyval → pyval →
    result string
}.

Section Pipeline.
Context `{External}.

(** ** [GReaT.__init__] (great.py l.35-53) *)

Definition from_pretrained_tokenizer (llm : pyval) : result pyval :=
  match llm with
  | PyStr s => match hub s with
               | Some _ => Ok (PyTokenizer s)
               | None => Raise OSError
               end
  | _ => Raise OSError
  end.

Definition from_pretrained_model (llm : pyval) : result pyval :=
  match llm with
  | PyStr s => match hub s with
               | Some w => Ok (PyModel s w)
               | None => Raise OSError
               end
  | _ => Raise OSError
  end.

Definition __init__ (llm experiment_dir epochs batch_size : pyval)
    (train_kwargs : list (pykey * pyval)) : result (gmap string pyval) :=
  tokenizer ← from_pretrained_tokenizer llm;
  model ← from_pretrained_model llm;
  let self : gmap string pyval := ∅ in
  let self := setattr self "llm" llm in
  let self := setattr self "tokenizer" tokenizer in
  let self := setattr self "model" model in
  let self := setattr self "experiment_dir" experiment_dir in
  let self := setattr self "epochs" epochs in
  let self := setattr self "batch_size" batch_size in
  let self := setattr self "train_hyperparameters" (PyDict train_kwargs) in
  let self := setattr self "columns" PyNone in
  let self := setattr self "num_cols" PyNone in
  let self := setattr self "conditional_col" PyNone in
  let self := setattr self "conditional_col_dist" PyNone in
  Ok self.

(** [GReaT(llm)] with the defaults of the other parameters. *)
Definition GReaT (llm : pyval) : result (gmap string pyval) :=
  __init__ llm (PyStr "trainer_great") (PyInt 100) (PyInt 8) [].

(** ** [GReaT.save] (great.py l.177-200) *)

(** [d.pop(key)]: the dictionary without [key]. *)
Definition dict_pop (d : gmap string pyval) (key : string)
  : result (gmap string pyval) :=
  match d !! key with
  | Some _ => Ok (delete key d)
  | None => Raise KeyError
  end.

(** [d[key]]. *)
Definition dict_get (d : gmap string pyval) (key : string) : result pyval :=
  match d !! key with
  | Some v => Ok v
  | None => Raise KeyError
  end.

(** [list(a)] for an [ndarray]. *)
Definition ndarray_to_list (v : pyval) : pyval :=
  match v with
  | PyArray a => PyList (map PyFloat a)
  | _ => v
  end.

(** [model.state_dict()]. *)
Definition state_dict (model : pyval) : result (string * string) :=
  match model with
  | PyModel llm sd => Ok (llm, sd)
  | _ => Raise AttributeError
  end.

(** The body of [with open(path + "/config.json", "w") as f]. *)
Definition save_attributes (self : gmap string pyval) : result json :=
  let attributes := self in
  attributes ← dict_pop attributes "tokenizer";
  attributes ← dict_pop attributes "model";
  dist ← dict_get attributes "conditional_col_dist";
  let attributes :=
    if is_ndarray dist
    then <["conditional_col_dist" := ndarray_to_list dist]> attributes
    else attributes in
  json_dumps attributes.

Definition save (self : gmap string pyval) (path : string) : ST fs unit :=
  isdir ← os_path_isdir path;
  (if isdir : bool
   then warnings_warn ("Directory " +:+ path
                       +:+ " already exists and is overwritten now.")
   else os_mkdir path);;
  open_w (path +:+ "/config.json");;
  j ← lift (save_attributes self);
  write_file (path +:+ "/config.json") (FJson j);;
  model ← lift (getattr self "model");
  sd ← lift (state_dict model);
  torch_save sd.1 sd.2 (path +:+ "/model.pt").

(** ** [GReaT.load_from_dir] (great.py l.208-229) *)

(** [attributes["llm"]] on what [json.load] returned. *)
Fixpoint assoc (k : pykey) (d : list (pykey * pyval)) : option pyval :=
  match d with
  | [] => None
  | (k', v) :: d' => if decide (k = k') then Some v else assoc k d'
  end.

Definition subscript (v : pyval) (key : string) : result pyval :=
  match v with
  | PyDict d => match assoc (KStr key) d with
                | Some x => Ok x
                | None => Raise KeyError
                end
  | _ => Raise TypeError
  end.

(** [attributes.items()], the keys being the strings [json.load] made. *)
Definition items (v : pyval) : result (list (string * pyval)) :=
  match v with
  | PyDict d => Ok (map (λ kv : pykey * pyval, (json_key kv.1, kv.2)) d)
  | _ => Raise AttributeError
  end.

(** [model.load_state_dict(sd)]: the weights must be those of the same
    architecture. *)
Definition load_state_dict (model : pyval) (sd : string * string)
  : result pyval :=
  match model with
  | PyModel llm _ =>
      if String.eqb llm sd.1 then Ok (PyModel llm sd.2) else Raise RuntimeError
  | _ => Raise AttributeError
  end.

Definition load_from_dir (path : string) : ST fs (gmap string pyval) :=
  isdir ← os_path_isdir path;
  lift (assert isdir);;
  c ← open_r (path +:+ "/config.json");
  attributes ← lift (json_load c);
  llm ← lift (subscript attributes "llm");
  great ← lift (GReaT llm);
  kvs ← lift (items attributes);
  let great := foldl (λ g kv, setattr g kv.1 kv.2) great kvs in
  model ← lift (getattr great "model");
  (* [great.model.load_state_dict] is looked up before [torch.load] runs *)
  lift (state_dict model);;
  sd ← torch_load (path +:+ "/model.pt");
  model ← lift (load_state_dict model sd);
  mret (setattr great "model" model).

(** ** [GReaT.fit] (great.py l.55-87, l.231-244) *)

(** The number a label denotes, for [==] across [bool], [int] and [float]. *)
Definition label_num (v : pyval) : option Q :=
  match v with
  | PyBool b => Some (inject_Z (if b then 1 else 0))
  | PyInt z => Some (inject_Z z)
  | PyFloat q => Some q
  | _ => None
  end.

(** [a == b] on column labels (scalars). *)
Definition label_eqb (a b : pyval) : bool :=
  match label_num a, label_num b with
  | Some x, Some y => Qeq_bool x y
  | None, None =>
      match a, b with
      | PyNone, PyNone => true
      | PyStr x, PyStr y => String.eqb x y
      | _, _ => false
      end
  | _, _ => false
  end.

(** [label in df.columns]. *)
Definition in_columns (label : pyval) (df : DataFrame) : bool :=
  existsb (label_eqb label) (df_columns df).

(** [df.columns[-1]]. *)
Definition last_column (df : DataFrame) : result pyval :=
  match List.last (map Some (df_columns df)) None with
  | Some c => Ok c
  | None => Raise IndexError
  end.

Definition get_attr (name : string) : ST (gmap string pyval) pyval :=
  λ self, (getattr self name, self).

Definition set_attr (name : string) (v : pyval) : ST (gmap string pyval) unit :=
  λ self, (Ok tt, setattr self name v).

Definition _update_column_information (df : DataFrame)
  : ST (gmap string pyval) unit :=
  set_attr "columns" (PyList (df_columns df));;
  set_attr "num_cols" (PyList (List.filter (is_number_dtype df) (df_columns df))).

Definition _update_conditional_information (df : DataFrame)
    (conditional_col : pyval) : ST (gmap string pyval) unit :=
  lift (assert (is_none conditional_col || is_str conditional_col));;
  lift (assert (is_none conditional_col || in_columns conditional_col df));;
  t ← lift (truthy conditional_col);
  col ← (if t : bool then mret conditional_col else lift (last_column df));
  set_attr "conditional_col" col;;
  col ← get_attr "conditional_col";
  set_attr "conditional_col_dist" (_get_column_distribution df col).

Definition fit (data : DataFrame + ndarray2)
    (column_names conditional_col resume_from_checkpoint : pyval)
  : ST (gmap string pyval) unit :=
  df ← lift (_array_to_dataframe data column_names);
  _update_column_information df;;
  _update_conditional_information df conditional_col;;
  tokenizer ← get_attr "tokenizer";
  experiment_dir ← get_attr "experiment_dir";
  epochs ← get_attr "epochs";
  batch_size ← get_attr "batch_size";
  train_hyperparameters ← get_attr "train_hyperparameters";
  model ← get_attr "model";
  sd ← lift (state_dict model);
  w ← lift (trainer_train model tokenizer df experiment_dir epochs batch_size
              train_hyperparameters resume_from_checkpoint);
  set_attr "model" (PyModel sd.1 w).

(** ** Helpers of [great_utils] used by the sampling methods *)

(** Modelled from the spec: [great_utils._convert_tokens_to_text] is not in
    [great.py]; the specification has it detokenize each generated sequence
    into one text. *)
Definition _convert_tokens_to_text (tokens : list tensor) (tokenizer : pyval)
  : list string :=
  map (tokenizer_decode tokenizer) tokens.

(** Modelled from the spec: [great_utils._convert_text_to_tabular_data] is
    not in [great.py]; the specification has it decode every text into one
    (possibly partial) row, never fail, and append the rows to the table. *)
Definition _convert_text_to_tabular_data (text : list string)
    (df_gen : DataFrame) : DataFrame :=
  Frame (df_columns df_gen)
        (df_rows df_gen ++ map (decode_row (df_columns df_gen)) text).

(** ** [pandas] operations of [sample] *)

Definition pykey_val (k : pykey) : pyval :=
  match k with
  | KNone => PyNone
  | KBool b => PyBool b
  | KInt z => PyInt z
  | KStr s => PyStr s
  end.

(** [pd.DataFrame(columns=v)]: an empty table. *)
Definition pd_DataFrame (columns : pyval) : result DataFrame :=
  match columns with
  | PyNone => Ok (Frame [] [])
  | PyList l => Ok (Frame l [])
  | PyArray a => Ok (Frame (map PyFloat a) [])
  | PyDict d => Ok (Frame (map (λ kv : pykey * pyval, pykey_val kv.1) d) [])
  | _ => Raise TypeError
  end.

(** [for x in v]. *)
Definition py_iter (v : pyval) : result (list pyval) :=
  match v with
  | PyList l => Ok l
  | PyArray a => Ok (map PyFloat a)
  | PyDict d => Ok (map (λ kv : pykey * pyval, pykey_val kv.1) d)
  | PyStr s =>
      Ok (map (λ c, PyStr (String c EmptyString)) (list_ascii_of_string s))
  | _ => Raise TypeError
  end.

Definition notnull (o : option Q) : bool :=
  match o with Some _ => true | None => false end.

(** [df[pd.to_numeric(df[label], errors='coerce').notnull()]]: a label that
    is no column is a [KeyError]; under a repeated label [df[label]] is a
    table, which [pd.to_numeric] rejects. *)
Definition keep_numeric (df : DataFrame) (label : pyval) : result DataFrame :=
  match List.filter (label_eqb label) (df_columns df) with
  | [] => Raise KeyError
  | [c] => Ok (Frame (df_columns df)
                     (List.filter (λ r, notnull (to_numeric (r c))) (df_rows df)))
  | _ => Raise TypeError
  end.

(** The loop [for i_num_cols in self.num_cols] (l.131-132). *)
Fixpoint remove_flawed (num_cols : list pyval) (df : DataFrame)
  : result DataFrame :=
  match num_cols with
  | [] => Ok df
  | c :: cs => df ← keep_numeric df c; remove_flawed cs df
  end.

(** [df.isna().any(axis=1)] on one row. *)
Definition any_isna (columns : list pyval) (r : pyval → pyval) : bool :=
  existsb (λ c, is_none (r c)) columns.

(** [df.drop(df[df.isna().any(axis=1)].index)] (l.135). *)
Definition drop_missing (df : DataFrame) : DataFrame :=
  Frame (df_columns df)
        (List.filter (λ r, negb (any_isna (df_columns df) r)) (df_rows df)).

(** [df.head(n)]; a negative [n] leaves out the last [-n] rows. *)
Definition df_head (df : DataFrame) (n : Z) : DataFrame :=
  Frame (df_columns df)
        (if (0 <=? n)%Z then firstn (Z.to_nat n) (df_rows df)
         else firstn (length (df_rows df) - Z.to_nat (- n)) (df_rows df)).

(** ** Generation: the state is the log of the inputs given to
    [model.generate], oldest first. *)

Definition generate (model : pyval) (input_ids : tensor) (max_length : Z)
    (temperature : Q) : ST (list tensor) tensor :=
  λ log,
    match model with
    | PyModel _ _ =>
        (Ok (model_generate (List.length log) model input_ids max_length temperature),
         log ++ [input_ids])
    | _ => (Raise AttributeError, log)
    end.

(** [self.model.to(device)]. *)
Definition model_to (self : gmap string pyval) : result unit :=
  model ← getattr self "model";
  state_dict model;;
  Ok tt.

(** [self.tokenizer(prompt)["input_ids"]]. *)
Definition call_tokenizer (tokenizer : pyval) (prompt : string) : result tensor :=
  match tokenizer with
  | PyTokenizer _ => Ok (tokenizer_encode tokenizer prompt)
  | _ => Raise TypeError
  end.

(** ** [GReaT.sample] (great.py l.89-142) *)

(** One run of the body of the [while] loop (l.119-139). *)
Definition sample_body (self : gmap string pyval) (great_start : GReaTStart)
    (temperature : Q) (k max_length : Z) (df_gen : DataFrame)
  : ST (list tensor) DataFrame :=
  λ log,
    let start_tokens := get_start_tokens (List.length log) great_start k in
    (model ← lift (getattr self "model");
     tokens ← generate model start_tokens max_length temperature;
     tokenizer ← lift (getattr self "tokenizer");
     let text_data := _convert_tokens_to_text (tensor_rows tokens) tokenizer in
     let df_gen := _convert_text_to_tabular_data text_data df_gen in
     num_cols ← lift (getattr self "num_cols");
     num_cols ← lift (py_iter num_cols);
     df_gen ← lift (remove_flawed num_cols df_gen);
     mret (drop_missing df_gen)) log.

(** The [while] loop (l.118); [None] when [fuel] runs of the body were not
    enough to leave it. *)
Fixpoint sample_loop (fuel : nat) (self : gmap string pyval)
    (great_start : GReaTStart) (n_samples : Z) (temperature : Q)
    (k max_length : Z) (df_gen : DataFrame) (log : list tensor)
  : option (result DataFrame * list tensor) :=
  if (n_samples >? Z.of_nat (List.length (df_rows df_gen)))%Z then
    match fuel with
    | O => None
    | S fuel' =>
        match sample_body self great_start temperature k max_length df_gen log with
        | (Ok df_gen', log') =>
            sample_loop fuel' self great_start n_samples temperature k
                        max_length df_gen' log'
        | (Raise e, log') => Some (Raise e, log')
        end
    end
  else Some (Ok df_gen, log).

(** What precedes the loop (l.107-113). *)
Definition sample_setup (self : gmap string pyval)
    (start_col start_col_dist : pyval) : result (GReaTStart * DataFrame) :=
  great_start ← _get_start_sampler self start_col start_col_dist;
  model_to self;;
  columns ← getattr self "columns";
  df_gen ← pd_DataFrame columns;
  Ok (great_start, df_gen).

Definition sample (fuel : nat) (self : gmap string pyval) (n_samples : Z)
    (start_col start_col_dist : pyval) (temperature : Q) (k max_length : Z)
    (log : list tensor) : option (result DataFrame * list tensor) :=
  match sample_setup self start_col start_col_dist with
  | Raise e => Some (Raise e, log)
  | Ok (great_start, df_gen) =>
      match sample_loop fuel self great_start n_samples temperature k
                        max_length df_gen log with
      | Some (Ok df_gen, log') => Some (Ok (df_head df_gen n_samples), log')
      | Some (Raise e, log') => Some (Raise e, log')
      | None => None
      end
  end.

(** ** [GReaT.great_sample] (great.py l.144-175) *)

(** The loop [for prompt in starting_prompts] (l.163-169). *)
Fixpoint great_sample_loop (self : gmap string pyval) (prompts : list string)
    (temperature : Q) (max_length : Z) (generated_data : list tensor)
  : ST (list tensor) (list tensor) :=
  match prompts with
  | [] => mret generated_data
  | prompt :: rest =>
      tokenizer ← lift (getattr self "tokenizer");
      start_token ← lift (call_tokenizer tokenizer prompt);
      model ← lift (getattr self "model");
      gen ← generate model (unsqueeze0 start_token) max_length temperature;
      great_sample_loop self rest temperature max_length
                        (generated_data ++ [squeeze gen])
  end.

Definition great_sample (self : gmap string pyval)
    (starting_prompts : string + list string) (temperature : Q)
    (max_length : Z) : ST (list tensor) DataFrame :=
  lift (model_to self);;
  let starting_prompts :=
    match starting_prompts with inl s => [s] | inr l => l end in
  generated_data ←
    great_sample_loop self starting_prompts temperature max_length [];
  tokenizer ← lift (getattr self "tokenizer");
  let decoded_data := _convert_tokens_to_text generated_data tokenizer in
  columns ← lift (getattr self "columns");
  df0 ← lift (pd_DataFrame columns);
  mret (_convert_text_to_tabular_data decoded_data df0).

End Pipeline.

(** ** The properties the specification states

    Predicates over the definitions above, in the words of the
    specification. *)

(** A start column name is supplied: a non-empty string. *)
Definition supplied_col (start_col : pyval) : bool :=
  match start_col with
  | PyStr s => str_nonempty s
  | _ => false
  end.

(** The start column is left at its default: [""] in [sample], [None] in
    the signature of [_get_start_sampler]. *)
Definition default_col (start_col : pyval) : bool :=
  match start_col with
  | PyNone => true
  | PyStr EmptyString => true
  | _ => false
  end.

(** Exactly one of start column and start distribution is supplied. *)
Definition exactly_one_supplied (start_col start_col_dist : pyval) : bool :=
  (supplied_col start_col && is_none start_col_dist)
  || (default_col start_col && negb (is_none start_col_dist)).

(** An empty distribution: [{}] or [[]]. *)
Definition empty_dist (start_col_dist : pyval) : bool :=
  match start_col_dist with
  | PyDict [] => true
  | PyList [] => true
  | _ => false
  end.

(** The sampler variant that the shape of a distribution selects. *)
Definition sampler_for (tokenizer start_col dist columns : pyval) : GReaTStart :=
  match dist with
  | PyDict _ => CategoricalStart tokenizer start_col dist
  | PyList _ => ContinuousStart tokenizer start_col dist
  | _ => RandomStart tokenizer columns
  end.

Definition is_model (v : pyval) : bool :=
  match v with PyModel _ _ => true | _ => false end.

Definition is_tokenizer (v : pyval) : bool :=
  match v with PyTokenizer _ => true | _ => false end.

Section Validity.
Context `{External}.

(** The field of a numeric column parses as a number. *)
Definition numeric_field (columns : list pyval) (r : pyval → pyval)
    (label : pyval) : bool :=
  existsb (λ c, label_eqb label c && notnull (to_numeric (r c))) columns.

(** The validity of a row: every numeric column holds a number and no
    column is missing. *)
Definition valid_row (columns num_cols : list pyval) (r : pyval → pyval)
  : bool :=
  forallb (numeric_field columns r) num_cols && negb (any_isna columns r).

(** Every numeric column is exactly one column of the table, as it is after
    [fit] on a table with distinct column names. *)
Definition numeric_labels_ok (columns num_cols : list pyval) : bool :=
  forallb (λ label,
             Nat.eqb (List.length (List.filter (label_eqb label) columns)) 1)
          num_cols.

(** The rows decoded from the batch of generation call number [i]. *)
Definition decoded_batch (model tokenizer : pyval) (great_start : GReaTStart)
    (temperature : Q) (k max_length : Z) (columns : list pyval) (i : nat)
  : list (pyval → pyval) :=
  map (decode_row columns)
      (_convert_tokens_to_text
         (tensor_rows (model_generate i model
                         (get_start_tokens i great_start k)
                         max_length temperature))
         tokenizer).

(** The valid rows among those generated by calls [first], ..,
    [first + count - 1]. *)
Definition valid_generated (model tokenizer : pyval) (great_start : GReaTStart)
    (temperature : Q) (k max_length : Z) (columns num_cols : list pyval)
    (first count : nat) : list (pyval → pyval) :=
  List.filter (valid_row columns num_cols)
    (flat_map (decoded_batch model tokenizer great_start temperature k
                             max_length columns)
              (seq first count)).

(** The quota property as the specification words it: when generation
    yields at least [n_samples] valid rows, [sample] returns exactly
    [n_samples] rows, all valid. *)
Definition quota_claim (self : gmap string pyval) (n_samples : Z)
    (start_col start_col_dist : pyval) (temperature : Q) (k max_length : Z)
    (log : list tensor) : Prop :=
  ∀ columns num_cols model tokenizer great_start df0,
    self !! "columns" = Some (PyList columns) →
    self !! "num_cols" = Some (PyList num_cols) →
    self !! "model" = Some model →
    self !! "tokenizer" = Some tokenizer →
    sample_setup self start_col start_col_dist = Ok (great_start, df0) →
    (∃ count,
       (n_samples ≤ Z.of_nat (List.length
          (valid_generated model tokenizer great_start temperature k
             max_length columns num_cols (List.length log) count)))%Z) →
    ∃ fuel df log',
      sample fuel self n_samples start_col start_col_dist temperature k
             max_length log = Some (Ok df, log')
      ∧ Z.of_nat (List.length (df_rows df)) = n_samples
      ∧ Forall (λ r, valid_row columns num_cols r = true) (df_rows df).

(** What [great_sample] generates for the prompts, the first call being
    call number [i]. *)
Fixpoint generations (model tokenizer : pyval) (temperature : Q)
    (max_length : Z) (i : nat) (prompts : list string) : list tensor :=
  match prompts with
  | [] => []
  | prompt :: rest =>
      squeeze (model_generate i model
                 (unsqueeze0 (tokenizer_encode tokenizer prompt))
                 max_length temperature)
      :: generations model tokenizer temperature max_length (S i) rest
  end.

End Validity.

(** ** Persistence *)

Fixpoint nodup_keys (l : list pykey) : bool :=
  match l with
  | [] => true
  | k :: l' => negb (bool_decide (k ∈ l')) && nodup_keys l'
  end.

Definition is_str_key (k : pykey) : bool :=
  match k with KStr _ => true | _ => false end.

(** The values that JSON holds as they are: [None], booleans, numbers,
    strings, lists of such values, and dictionaries of such values under
    string keys. *)
Fixpoint json_stable (v : pyval) : bool :=
  match v with
  | PyNone | PyBool _ | PyInt _ | PyFloat _ | PyStr _ => true
  | PyList l => forallb json_stable l
  | PyDict d =>
      forallb is_str_key (map fst d) && nodup_keys (map fst d)
      && forallb (λ kv : pykey * pyval, let (_, x) := kv in json_stable x) d
  | PyArray _ | PyTokenizer _ | PyModel _ _ => false
  end.

(** The attributes that the persistence property names. *)
Definition sampling_attributes : list string :=
  ["columns"; "num_cols"; "conditional_col"; "conditional_col_dist"].

(** The persistence property as the specification words it: after
    [save(path)], [load_from_dir(path)] yields an object with the same
    column set, numeric columns, conditional column and conditional
    distribution. *)
Definition persistence_claim `{External} (self : gmap string pyval)
    (path : string) (w : fs) : Prop :=
  ∀ w', save self path w = (Ok tt, w') →
    ∃ great w'', load_from_dir path w' = (Ok great, w'')
      ∧ ∀ name, name ∈ sampling_attributes → great !! name = self !! name.

(** ** [GReaT.load_finetuned_model] (great.py l.202-206)

    The method reads the file system and assigns the weights of the model
    of the object; the state is the pair of both. *)

Section Coverage.
Context `{External}.

Definition load_finetuned_model (path : string)
  : ST (fs * gmap string pyval) unit :=
  λ st,
    let (w, self) := st in
    (* [self.model.load_state_dict] is looked up before [torch.load] runs *)
    match (model ← getattr self "model"; state_dict model;; Ok model) with
    | Raise e => (Raise e, st)
    | Ok model =>
        match torch_load path w with
        | (Raise e, w') => (Raise e, (w', self))
        | (Ok sd, w') =>
            match load_state_dict model sd with
            | Raise e => (Raise e, (w', self))
            | Ok model' => (Ok tt, (w', setattr self "model" model'))
            end
        end
    end.

(** The inputs of the generation calls number [first], ..,
    [first + count - 1] of [sample]. *)
Definition start_inputs (great_start : GReaTStart) (k : Z) (first count : nat)
  : list tensor :=
  map (λ i, get_start_tokens i great_start k) (seq first count).

(** The object after [_update_column_information(df)] (l.231-234). *)
Definition with_columns (df : DataFrame) (self : gmap string pyval)
  : gmap string pyval :=
  setattr (setattr self "columns" (PyList (df_columns df))) "num_cols"
          (PyList (List.filter (is_number_dtype df) (df_columns df))).

End Coverage.

(** The attributes [names] of the object hold values that JSON holds as
    they are. *)
Definition stable_attributes (self : gmap string pyval) (names : list string)
  : bool :=
  forallb (λ name, match self !! name with
                   | Some v => json_stable v
                   | None => false
                   end) names.

(** The attributes that [sample] and [great_sample] read. *)
Definition sampling_reads : list string :=
  ["conditional_col"; "conditional_col_dist"; "tokenizer"; "columns";
   "model"; "num_cols"].

(** ** A test double of the external services

    Texts stand for their own token sequences, a tensor is the list of its
    rows, and the generator answers every prompt of call [i] with the text
    [emit i].  The only checkpoint on the hub is ["distilgpt2"]. *)
Module Stub.

Definition drop_prefix (n : nat) (s : string) : string :=
  String.substring n (String.length s - n) s.

(** [s.split(sep, 1)] when [sep] occurs in [s]. *)
Fixpoint split_first (sep s : string) : option (string * string) :=
  if String.prefix sep s then Some (EmptyString, drop_prefix (String.length sep) s)
  else match s with
       | EmptyString => None
       | String c s' =>
           match split_first sep s' with
           | Some (a, b) => Some (String c a, b)
           | None => None
           end
       end.

(** [s.split(sep)], at most [fuel] cuts. *)
Fixpoint split_all (fuel : nat) (sep s : string) : list string :=
  match fuel with
  | O => [s]
  | S fuel' =>
      match split_first sep s with
      | Some (a, b) => a :: split_all fuel' sep b
      | None => [s]
      end
  end.

Definition is_column (columns : list pyval) (name : string) : bool :=
  existsb (λ c, match c with PyStr s => String.eqb s name | _ => false end)
          columns.

(** The [(column, value)] pairs of one text, malformed segments and unknown
    columns dropped. *)
Definition fields (columns : list pyval) (text : string)
  : list (string * string) :=
  omap (λ seg, match split_first " is " seg with
               | Some (k, v) => if is_column columns k then Some (k, v) else None
               | None => None
               end)
       (split_all (String.length text) ", " text).

Fixpoint first_value (name : string) (l : list (string * string)) : pyval :=
  match l with
  | [] => PyNone
  | (k, v) :: l' => if String.eqb k name then PyStr v else first_value name l'
  end.

(** Modelled from the spec: the row decoder of [great_utils] is not in
    [great.py]; the specification splits the text on [", "], each segment
    on its first [" is "], keeps the segments whose left part is a known
    column, and leaves every other column missing. *)
Definition decode (columns : list pyval) (text : string) (label : pyval)
  : pyval :=
  match label with
  | PyStr name => first_value name (fields columns text)
  | _ => PyNone
  end.

Definition is_digit (c : ascii) : bool :=
  let n := nat_of_ascii c in (48 <=? n)%nat && (n <=? 57)%nat.

Fixpoint digits_value (s : string) (acc : Z) : option Z :=
  match s with
  | EmptyString => Some acc
  | String c s' =>
      if is_digit c
      then digits_value s' (10 * acc + Z.of_nat (nat_of_ascii c - 48))%Z
      else None
  end.

(** Numbers and non-empty strings of decimal digits are numeric. *)
Definition numeric (v : pyval) : option Q :=
  match v with
  | PyInt z => Some (inject_Z z)
  | PyFloat q => Some q
  | PyStr (String c s) => inject_Z <$> digits_value (String c s) 0
  | _ => None
  end.

Definition number_cell (v : pyval) : bool :=
  match v with PyInt _ | PyFloat _ => true | _ => false end.

Definition float_cell (v : pyval) : bool :=
  match v with PyFloat _ => true | _ => false end.

Definition cell_key (v : pyval) : pykey :=
  match v with
  | PyBool b => KBool b
  | PyInt z => KInt z
  | PyStr s => KStr s
  | _ => KNone
  end.

Fixpoint count_key (k : pykey) (l : list pykey) : nat :=
  match l with
  | [] => O
  | k' :: l' => (if decide (k = k') then 1 else 0) + count_key k l'
  end.

Fixpoint distinct (l : list pykey) : list pykey :=
  match l with
  | [] => []
  | k :: l' => k :: List.filter (λ k', negb (bool_decide (k = k'))) (distinct l')
  end.

(** Modelled from the spec: [great_utils._get_column_distribution] is not
    in [great.py]; the specification has the conditional distribution be the
    ordered sequence of the observed values of a continuous column, and the
    mapping from category to probability of a discrete one. *)
Definition distribution (df : DataFrame) (col : pyval) : pyval :=
  let cells := map (λ r : pyval → pyval, r col) (df_rows df) in
  if forallb float_cell cells then PyList cells
  else
    let keys := map cell_key cells in
    PyDict (map (λ k, (k, PyFloat (Qred (Z.of_nat (count_key k keys)
                                         # Pos.of_nat (List.length keys)))))
                (distinct keys)).

Definition services (emit : nat → string) : External := {|
  tensor := list string;
  hub := λ llm, if String.eqb llm "distilgpt2" then Some "pretrained" else None;
  tokenizer_encode := λ _ prompt, [prompt];
  tokenizer_decode := λ _ t, String.concat EmptyString t;
  unsqueeze0 := λ t, t;
  squeeze := λ t, t;
  tensor_rows := λ t, map (λ s, [s]) t;
  model_generate := λ i _ input_ids _ _, map (λ _, emit i) input_ids;
  get_start_tokens := λ _ _ k, List.repeat EmptyString (Z.to_nat k);
  decode_row := decode;
  to_numeric := numeric;
  is_number_dtype := λ df c, forallb (λ r : pyval → pyval, number_cell (r c)) (df_rows df);
  ndarray2 := Empty_set;
  _array_to_dataframe := λ data _,
    match data with inl df => Ok df | inr _ => Raise TypeError end;
  _get_column_distribution := distribution;
  trainer_train := λ _ _ _ _ _ _ _ _, Ok "fine-tuned"
|}.

(** The table of the worked example: [age:int], [sex:{M,F}], [income:float]. *)
Definition row (age : Z) (sex : string) (income : Q) (label : pyval) : pyval :=
  match label with
  | PyStr "age" => PyInt age
  | PyStr "sex" => PyStr sex
  | PyStr "income" => PyFloat income
  | _ => PyNone
  end.

Definition people : DataFrame :=
  Frame [PyStr "age"; PyStr "sex"; PyStr "income"]
        [row 30 "M" 50000; row 40 "F" 10000].

(** A table whose first column has the empty name. *)
Definition blank_named : DataFrame :=
  Frame [PyStr ""; PyStr "a"]
        [λ label, match label with
                  | PyStr "" => PyStr "x"
                  | PyStr "a" => PyStr "y"
                  | _ => PyNone
                  end].

(** The generator that always emits the row of the worked example, the one
    that emits an unparseable text, and the one that emits a row with a
    malformed age and no income. *)
Definition good_text : string := "age is 30, sex is M, income is 50000".
Definition malformed_text : string := "age is forty, sex is F".

Definition good : External := services (λ _, good_text).
Definition garbage : External := services (λ _, "garbage").
Definition malformed : External := services (λ _, malformed_text).

(** The object after [GReaT("distilgpt2")]; the empty object if the
    constructor raises. *)
Definition fresh : gmap string pyval :=
  match @GReaT good (PyStr "distilgpt2") with
  | Ok self => self
  | Raise _ => ∅
  end.

(** How [fit(df, conditional_col=conditional_col)] ends on the fresh object,
    and the object after it. *)
Definition fit_on (df : DataFrame) (conditional_col : pyval)
  : result unit * gmap string pyval :=
  @fit good (inl df) PyNone conditional_col (PyBool false) fresh.

(** The worked example: [fit(people, conditional_col="sex")]. *)
Definition fitted : gmap string pyval := (fit_on people (PyStr "sex")).2.

(** The same table fitted on its integer column. *)
Definition fitted_on_age : gmap string pyval :=
  (fit_on people (PyStr "age")).2.

(** An empty file system, and one where the directory ["out"] exists. *)
Definition empty_fs : fs := Fs ∅ ∅ [] [].
Definition out_exists : fs := Fs {["out"]} ∅ [] [].

(** The document that [save] writes for the worked example. *)
Definition config : json :=
  match @save_attributes fitted with
  | Ok j => j
  | Raise _ => JNull
  end.

(** The file system after [save] of the worked example into ["out"]. *)
Definition saved : fs := (@save fitted "out" empty_fs).2.

(** The worked example with an array for its columns, which [json] cannot
    dump. *)
Definition unserialisable : gmap string pyval :=
  setattr fitted "columns" (PyArray [1 # 1; 2 # 1]).

(** A file system where ["out"] names a file, and one where the directory
    ["out"] holds a configuration without the checkpoint name. *)
Definition out_is_file : fs := Fs ∅ {["out" := FIncomplete]} [] [].
Definition no_llm : fs :=
  Fs {["out"]} {["out/config.json" := FJson (JObj [("epochs", JInt 1)])]}
     [] [].

(** A table without columns. *)
Definition no_columns : DataFrame := Frame [] [].

End Stub.


(** * Properties *)

(** ** The start sampler *)

Section StartSampler.

Variable self : gmap string pyval.

Lemma truthy_supplied start_col :
  supplied_col start_col = true → truthy start_col = Ok true.
Proof. destruct start_col; try discriminate. simpl. by intros ->. Qed.

Lemma truthy_default start_col :
  default_col start_col = true → truthy start_col = Ok false.
Proof.
  destruct start_col as [| | | |s| | | | |]; try discriminate; [done|].
  by destruct s.
Qed.

Lemma default_col_checks start_col :
  default_col start_col = true → is_none start_col || is_str start_col = true.
Proof. by destruct start_col. Qed.

(** C2: supplying exactly one of start column and start distribution makes
    the construction of the start sampler raise [ValueError], whichever of
    the two is the one supplied. *)
Theorem start_sampler_exactly_one_raises start_col start_col_dist :
  exactly_one_supplied start_col start_col_dist = true →
  _get_start_sampler self start_col start_col_dist = Raise ValueError.
Proof.
  unfold exactly_one_supplied, _get_start_sampler.
  intros [[Hc Hd]%andb_prop | [Hc Hd]%andb_prop]%orb_prop.
  - rewrite (truthy_supplied _ Hc). simpl. by rewrite Hd.
  - rewrite (truthy_default _ Hc). simpl.
    apply negb_true_iff in Hd. by rewrite Hd.
Qed.

Variables tokenizer conditional_col conditional_col_dist columns : pyval.
Hypothesis Htokenizer : self !! "tokenizer" = Some tokenizer.
Hypothesis Hcol : self !! "conditional_col" = Some conditional_col.
Hypothesis Hdist : self !! "conditional_col_dist" = Some conditional_col_dist.
Hypothesis Hcolumns : self !! "columns" = Some columns.

(** With the start column at its default and no start distribution, the
    sampler is the one that the fitted distribution selects, on the fitted
    conditional column. *)
Lemma start_sampler_default start_col :
  default_col start_col = true →
  _get_start_sampler self start_col PyNone
  = Ok (sampler_for tokenizer conditional_col conditional_col_dist columns).
Proof using Htokenizer Hcol Hdist Hcolumns.
  intros Hc. unfold _get_start_sampler.
  rewrite (truthy_default _ Hc). simpl.
  rewrite (default_col_checks _ Hc). simpl.
  unfold getattr. rewrite Hcol, Hdist, Htokenizer, Hcolumns. simpl.
  by destruct conditional_col_dist.
Qed.

(** C5: called with neither start column nor start distribution, the
    sampler falls back to the fitted conditional column and distribution: a
    mapping gives [CategoricalStart], a list gives [ContinuousStart]; with
    no fitted distribution it is [RandomStart] over the column set. *)
Theorem start_sampler_falls_back start_col :
  default_col start_col = true →
  (∀ d, conditional_col_dist = PyDict d →
        _get_start_sampler self start_col PyNone
        = Ok (CategoricalStart tokenizer conditional_col (PyDict d)))
  ∧ (∀ l, conditional_col_dist = PyList l →
          _get_start_sampler self start_col PyNone
          = Ok (ContinuousStart tokenizer conditional_col (PyList l)))
  ∧ (conditional_col_dist = PyNone →
     _get_start_sampler self start_col PyNone
     = Ok (RandomStart tokenizer columns)).
Proof using Htokenizer Hcol Hdist Hcolumns.
  intros Hc. rewrite (start_sampler_default _ Hc).
  repeat split; intros; by subst.
Qed.

(** C9: a non-empty start column with an empty distribution passes the
    checks, and the sampler is built on the caller's column from the fitted
    distribution, whose shape selects the variant. *)
Theorem start_sampler_empty_dist_discarded s start_col_dist :
  str_nonempty s = true →
  empty_dist start_col_dist = true →
  _get_start_sampler self (PyStr s) start_col_dist
  = Ok (sampler_for tokenizer (PyStr s) conditional_col_dist columns).
Proof using Htokenizer Hdist Hcolumns.
  intros Hs Hd. unfold _get_start_sampler. simpl. rewrite Hs.
  assert (Hshape : start_col_dist = PyDict [] ∨ start_col_dist = PyList []).
  { destruct start_col_dist as [| | | | |[|]|[|]| | |]; try discriminate; auto. }
  unfold getattr.
  destruct Hshape as [-> | ->]; simpl; rewrite Hdist, Htokenizer, Hcolumns;
    simpl; by destruct conditional_col_dist.
Qed.

End StartSampler.

(** ** Lists and filters *)

Lemma filter_twice {A} (p q : A → bool) (l : list A) :
  List.filter q (List.filter p l) = List.filter (λ x, p x && q x) l.
Proof.
  induction l as [|a l IH]; [done|]. simpl.
  destruct (p a) eqn:Hp; simpl; [|done].
  destruct (q a); by rewrite IH.
Qed.

Lemma filter_all {A} (p : A → bool) (l : list A) :
  forallb p l = true → List.filter p l = l.
Proof.
  induction l as [|a l IH]; [done|]. simpl.
  intros [-> Hl]%andb_prop. by rewrite IH.
Qed.

Lemma filter_none {A} (p : A → bool) (l : list A) :
  (∀ x, In x l → p x = false) → List.filter p l = [].
Proof.
  induction l as [|a l IH]; [done|]. simpl. intros Hl.
  rewrite (Hl a) by auto. apply IH. auto.
Qed.

Lemma forallb_filter {A} (p : A → bool) (l : list A) :
  forallb p (List.filter p l) = true.
Proof.
  induction l as [|a l IH]; [done|]. simpl.
  destruct (p a) eqn:Hp; simpl; [by rewrite Hp|done].
Qed.

Lemma existsb_filter_nil {A} (p q : A → bool) (l : list A) :
  List.filter p l = [] → existsb (λ y, p y && q y) l = false.
Proof.
  induction l as [|a l IH]; [done|]. simpl.
  destruct (p a); [discriminate|]. simpl. apply IH.
Qed.

Lemma existsb_filter_singleton {A} (p q : A → bool) (l : list A) (x : A) :
  List.filter p l = [x] → existsb (λ y, p y && q y) l = q x.
Proof.
  induction l as [|a l IH]; [discriminate|]. simpl.
  destruct (p a) eqn:Hp; simpl.
  - intros [= -> Hl]. rewrite (existsb_filter_nil _ _ _ Hl).
    by rewrite orb_false_r.
  - apply IH.
Qed.

(** ** Sampling *)

Section Sampling.
Context `{External}.

Variable self : gmap string pyval.
Variables columns num_cols : list pyval.
Variables tokenizer model : pyval.
Hypothesis Hcolumns : self !! "columns" = Some (PyList columns).
Hypothesis Hnum_cols : self !! "num_cols" = Some (PyList num_cols).
Hypothesis Htokenizer : self !! "tokenizer" = Some tokenizer.
Hypothesis Hmodel : self !! "model" = Some model.
Hypothesis Hmodel_ok : is_model model = true.

Lemma keep_numeric_ok rows label :
  Nat.eqb (List.length (List.filter (label_eqb label) columns)) 1 = true →
  keep_numeric (Frame columns rows) label
  = Ok (Frame columns (List.filter (λ r, numeric_field columns r label) rows)).
Proof.
  intros Hone%Nat.eqb_eq. unfold keep_numeric. simpl.
  destruct (List.filter (label_eqb label) columns) as [|c [|c' l]] eqn:Hf;
    try discriminate.
  do 2 f_equal. apply List.filter_ext. intros r.
  unfold numeric_field. symmetry.
  apply (existsb_filter_singleton _ (λ c, notnull (to_numeric (r c))) _ _ Hf).
Qed.

Lemma remove_flawed_ok labels rows :
  numeric_labels_ok columns labels = true →
  remove_flawed labels (Frame columns rows)
  = Ok (Frame columns
          (List.filter (λ r, forallb (numeric_field columns r) labels) rows)).
Proof.
  revert rows. induction labels as [|c cs IH]; intros rows Hok; simpl.
  - rewrite filter_all; [done|]. by induction rows.
  - apply andb_prop in Hok as [Hc Hcs].
    rewrite (keep_numeric_ok _ _ Hc). simpl.
    change (remove_flawed cs
              (Frame columns
                 (List.filter (λ r, numeric_field columns r c) rows))
            = Ok (Frame columns
                    (List.filter
                       (λ r, numeric_field columns r c
                             && forallb (numeric_field columns r) cs) rows))).
    rewrite (IH _ Hcs). by rewrite filter_twice.
Qed.

Hypothesis Hlabels : numeric_labels_ok columns num_cols = true.

(** One run of the loop body appends the valid rows of the batch. *)
Lemma sample_body_ok great_start temperature k max_length rows log :
  sample_body self great_start temperature k max_length
              (Frame columns rows) log
  = (Ok (Frame columns
           (List.filter (valid_row columns num_cols)
              (rows ++ decoded_batch model tokenizer great_start temperature
                         k max_length columns (List.length log)))),
     log ++ [get_start_tokens (List.length log) great_start k]).
Proof using Hnum_cols Htokenizer Hmodel Hmodel_ok Hlabels.
  unfold sample_body, generate, lift, getattr, mbind, ST_bind.
  rewrite Hmodel. destruct model; try discriminate. simpl.
  rewrite Htokenizer, Hnum_cols. simpl.
  unfold _convert_text_to_tabular_data. simpl.
  rewrite (remove_flawed_ok _ _ Hlabels). simpl.
  unfold mret, ST_ret, drop_missing. simpl.
  by rewrite filter_twice.
Qed.

Lemma sample_setup_ok start_col start_col_dist great_start :
  _get_start_sampler self start_col start_col_dist = Ok great_start →
  sample_setup self start_col start_col_dist
  = Ok (great_start, Frame columns []).
Proof using Hcolumns Hmodel Hmodel_ok.
  intros Hs. unfold sample_setup, model_to, getattr. rewrite Hs. simpl.
  rewrite Hmodel. destruct model; try discriminate. simpl.
  by rewrite Hcolumns.
Qed.

(** When the quota is already met the loop body does not run. *)
Lemma sample_loop_done fuel great_start n_samples temperature k max_length
    df_gen log :
  (n_samples ≤ Z.of_nat (List.length (df_rows df_gen)))%Z →
  sample_loop fuel self great_start n_samples temperature k max_length
              df_gen log
  = Some (Ok df_gen, log).
Proof.
  intros Hn. destruct fuel; simpl;
    by destruct (Z.gtb_spec n_samples (Z.of_nat (List.length (df_rows df_gen))));
      [lia|].
Qed.

Variables conditional_col conditional_col_dist : pyval.
Hypothesis Hcol : self !! "conditional_col" = Some conditional_col.
Hypothesis Hdist : self !! "conditional_col_dist" = Some conditional_col_dist.

(** C10: for [n_samples <= 0], [sample(n_samples)] generates nothing (the
    log of generation calls is unchanged, whatever the fuel, none included)
    and returns the empty table over the fitted column set. *)
Theorem sample_nonpositive fuel n_samples temperature k max_length log :
  (n_samples ≤ 0)%Z →
  sample fuel self n_samples (PyStr "") PyNone temperature k max_length log
  = Some (Ok (Frame columns []), log).
Proof using Hcolumns Htokenizer Hmodel Hmodel_ok Hcol Hdist.
  intros Hn. unfold sample.
  rewrite (sample_setup_ok _ _
             (sampler_for tokenizer conditional_col conditional_col_dist
                          (PyList columns))).
  - rewrite sample_loop_done by (simpl; lia).
    unfold df_head. simpl. by rewrite !firstn_nil, Tauto.if_same.
  - by apply start_sampler_default.
Qed.

Notation valid_rows_of great_start temperature k max_length :=
  (valid_generated model tokenizer great_start temperature k max_length
                   columns num_cols).

Lemma valid_generated_S great_start temperature k max_length first j :
  valid_rows_of great_start temperature k max_length first (S j)
  = valid_rows_of great_start temperature k max_length first j
    ++ List.filter (valid_row columns num_cols)
         (decoded_batch model tokenizer great_start temperature k max_length
                        columns (first + j)).
Proof.
  unfold valid_generated.
  by rewrite seq_S, flat_map_app, List.filter_app; simpl; rewrite app_nil_r.
Qed.

(** The table after one more run of the body holds the valid rows of one
    more batch. *)
Lemma sample_body_step great_start temperature k max_length first j log :
  List.length log = first + j →
  sample_body self great_start temperature k max_length
    (Frame columns (valid_rows_of great_start temperature k max_length first j))
    log
  = (Ok (Frame columns
           (valid_rows_of great_start temperature k max_length first (S j))),
     log ++ [get_start_tokens (List.length log) great_start k]).
Proof using Hnum_cols Htokenizer Hmodel Hmodel_ok Hlabels.
  intros Hlen. rewrite sample_body_ok, valid_generated_S, List.filter_app, Hlen.
  rewrite (filter_all _ (valid_rows_of great_start temperature k max_length
                                       first j)); [done|].
  apply forallb_filter.
Qed.

Lemma sample_loop_reaches great_start n_samples temperature k max_length
    first count :
  ∀ j log,
    List.length log = first + j →
    (n_samples ≤ Z.of_nat (List.length
       (valid_rows_of great_start temperature k max_length first (j + count))))%Z →
    ∃ fuel j' log',
      (∀ fuel', (fuel ≤ fuel')%nat →
         sample_loop fuel' self great_start n_samples temperature k max_length
           (Frame columns
              (valid_rows_of great_start temperature k max_length first j))
           log
         = Some (Ok (Frame columns
                       (valid_rows_of great_start temperature k max_length
                                      first j')), log'))
      ∧ (n_samples ≤ Z.of_nat (List.length
           (valid_rows_of great_start temperature k max_length first j')))%Z.
Proof using Hnum_cols Htokenizer Hmodel Hmodel_ok Hlabels.
  induction count as [|count IH]; intros j log Hlen Hn.
  - rewrite Nat.add_0_r in Hn. exists 0, j, log. split; [|done].
    intros fuel' _. by apply sample_loop_done.
  - destruct (Z.le_gt_cases n_samples
                (Z.of_nat (List.length
                   (valid_rows_of great_start temperature k max_length first j))))
      as [Hdone | Hmore].
    + exists 0, j, log. split; [|done].
      intros fuel' _. by apply sample_loop_done.
    + destruct (IH (S j)
                  (log ++ [get_start_tokens (List.length log) great_start k]))
        as (fuel & j' & log' & Hrun & Hj').
      * rewrite length_app. simpl. lia.
      * by replace (S j + count) with (j + S count) by lia.
      * exists (S fuel), j', log'. split; [|done].
        intros [|fuel'] Hfuel; [lia|]. simpl.
        destruct (Z.gtb_spec n_samples
                    (Z.of_nat (List.length
                       (valid_rows_of great_start temperature k max_length
                                      first j)))); [|lia].
        rewrite (sample_body_step _ _ _ _ _ _ _ Hlen).
        apply Hrun. lia.
Qed.

Lemma valid_generated_valid great_start temperature k max_length first j :
  Forall (λ r, valid_row columns num_cols r = true)
         (valid_rows_of great_start temperature k max_length first j).
Proof.
  apply Forall_forall. intros r Hr. unfold valid_generated in Hr.
  by apply list_elem_of_In, List.filter_In in Hr as [_ Hr].
Qed.

(** C1, as amended: when generation yields at least [n_samples] valid rows,
    [sample(n_samples)] returns, for enough fuel, a table over the fitted
    column set with exactly [max(n_samples, 0)] rows, each of them valid. *)
Theorem sample_quota n_samples start_col start_col_dist great_start
    temperature k max_length log :
  _get_start_sampler self start_col start_col_dist = Ok great_start →
  (∃ count,
     (n_samples ≤ Z.of_nat (List.length
        (valid_rows_of great_start temperature k max_length
                       (List.length log) count)))%Z) →
  ∃ fuel df log',
    (∀ fuel', (fuel ≤ fuel')%nat →
       sample fuel' self n_samples start_col start_col_dist temperature k
              max_length log = Some (Ok df, log'))
    ∧ Z.of_nat (List.length (df_rows df)) = Z.max 0 n_samples
    ∧ df_columns df = columns
    ∧ Forall (λ r, valid_row columns num_cols r = true) (df_rows df).
Proof using Hcolumns Hnum_cols Htokenizer Hmodel Hmodel_ok Hlabels.
  intros Hs [count Hcount].
  destruct (Z.le_gt_cases n_samples 0) as [Hle | Hpos].
  { exists 0, (Frame columns []), log. split; [|split; [|split]]; try done.
    - intros fuel' _. unfold sample. rewrite (sample_setup_ok _ _ _ Hs).
      rewrite sample_loop_done by (simpl; lia).
      unfold df_head. simpl. by rewrite !firstn_nil, Tauto.if_same.
    - simpl. lia. }
  destruct (sample_loop_reaches great_start n_samples temperature k max_length
              (List.length log) count 0 log) as (fuel & j' & log' & Hrun & Hj');
    [lia | done |].
  exists fuel, (df_head (Frame columns
                  (valid_rows_of great_start temperature k max_length
                                 (List.length log) j')) n_samples), log'.
  split; [|split; [|split]].
  - intros fuel' Hfuel. unfold sample.
    rewrite (sample_setup_ok _ _ _ Hs).
    change (Frame columns [])
      with (Frame columns
              (valid_rows_of great_start temperature k max_length
                             (List.length log) 0)).
    by rewrite (Hrun _ Hfuel).
  - unfold df_head. simpl. destruct (Z.leb_spec 0 n_samples); [|lia].
    rewrite length_firstn. lia.
  - done.
  - unfold df_head. simpl.
    destruct (0 <=? n_samples)%Z; apply Forall_take, valid_generated_valid.
Qed.

(** C4: when every row that every batch decodes to fails validation,
    [sample(n_samples)] with [n_samples >= 1] does not return: no amount of
    fuel lets the loop end, and the body has no other exit. *)
Theorem sample_never_returns fuel n_samples start_col start_col_dist
    great_start temperature k max_length log :
  (1 ≤ n_samples)%Z →
  _get_start_sampler self start_col start_col_dist = Ok great_start →
  (∀ i input x,
     In x (tensor_rows (model_generate i model input max_length temperature)) →
     valid_row columns num_cols
               (decode_row columns (tokenizer_decode tokenizer x)) = false) →
  sample fuel self n_samples start_col start_col_dist temperature k max_length
         log = None.
Proof using Hcolumns Hnum_cols Htokenizer Hmodel Hmodel_ok Hlabels.
  intros Hn Hs Hbad. unfold sample. rewrite (sample_setup_ok _ _ _ Hs).
  assert (Hloop : sample_loop fuel self great_start n_samples temperature k
                    max_length (Frame columns []) log = None);
    [|by rewrite Hloop].
  revert log.
  induction fuel as [|fuel IH]; intros log;
    cbn [sample_loop df_rows List.length];
    destruct (Z.gtb_spec n_samples (Z.of_nat 0)); try lia; try done.
  rewrite sample_body_ok. simpl.
  rewrite filter_none; [apply IH|].
  intros r Hr. unfold decoded_batch, _convert_tokens_to_text in Hr.
  apply in_map_iff in Hr as (text & <- & Htext).
  apply in_map_iff in Htext as (x & <- & Hx).
  by eapply Hbad.
Qed.

End Sampling.

(** ** Sampling from given prompts *)

Section GreatSample.
Context `{External}.

Variable self : gmap string pyval.
Variable columns : list pyval.
Variables tokenizer model : pyval.
Hypothesis Hcolumns : self !! "columns" = Some (PyList columns).
Hypothesis Htokenizer : self !! "tokenizer" = Some tokenizer.
Hypothesis Htokenizer_ok : is_tokenizer tokenizer = true.
Hypothesis Hmodel : self !! "model" = Some model.
Hypothesis Hmodel_ok : is_model model = true.

Lemma generations_length temperature max_length i prompts :
  List.length (generations model tokenizer temperature max_length i prompts)
  = List.length prompts.
Proof. revert i. induction prompts; intros i; simpl; [done|]. by rewrite IHprompts. Qed.

Lemma great_sample_loop_ok temperature max_length prompts :
  ∀ generated_data log,
    great_sample_loop self prompts temperature max_length generated_data log
    = (Ok (generated_data
           ++ generations model tokenizer temperature max_length
                          (List.length log) prompts),
       log ++ map (λ p, unsqueeze0 (tokenizer_encode tokenizer p)) prompts).
Proof using Htokenizer Htokenizer_ok Hmodel Hmodel_ok.
  induction prompts as [|prompt rest IH]; intros generated_data log.
  - simpl. by rewrite !app_nil_r.
  - cbn [great_sample_loop generations map].
    unfold mbind, ST_bind, lift, getattr, call_tokenizer, generate.
    rewrite Htokenizer. destruct tokenizer; try discriminate.
    rewrite Hmodel. destruct model; try discriminate.
    rewrite IH, length_app, <- !app_assoc. simpl.
    by rewrite Nat.add_1_r.
Qed.

Lemma model_to_ok : model_to self = Ok tt.
Proof using Hmodel Hmodel_ok.
  unfold model_to, getattr. rewrite Hmodel. by destruct model.
Qed.

(** C6: [great_sample(prompts)] calls the generator exactly once for every
    prompt, in order, and returns the table of all the decoded rows, one per
    prompt and whatever they hold: there is no quota loop, no second attempt
    and no validity filter. *)
Theorem great_sample_one_generation_each starting_prompts temperature
    max_length log :
  let prompts := match starting_prompts with inl s => [s] | inr l => l end in
  let generated :=
    generations model tokenizer temperature max_length (List.length log)
                prompts in
  great_sample self starting_prompts temperature max_length log
  = (Ok (Frame columns
           (map (λ g, decode_row columns (tokenizer_decode tokenizer g))
                generated)),
     log ++ map (λ p, unsqueeze0 (tokenizer_encode tokenizer p)) prompts)
  ∧ List.length generated = List.length prompts.
Proof using Hcolumns Htokenizer Htokenizer_ok Hmodel Hmodel_ok.
  intros prompts generated. split; [|apply generations_length].
  unfold great_sample. rewrite model_to_ok. fold prompts.
  unfold mbind, ST_bind, lift. rewrite great_sample_loop_ok.
  unfold getattr. rewrite Htokenizer, Hcolumns. simpl.
  unfold _convert_text_to_tabular_data, _convert_tokens_to_text. simpl.
  by rewrite map_map.
Qed.

End GreatSample.

(** ** Fitting: the conditional column *)

Section Fit.
Context `{External}.

Variable df : DataFrame.

(** A conditional column that is neither [None] nor a string, or a string
    that is no column of the table, is rejected by an assertion. *)
Lemma conditional_information_rejects conditional_col self :
  (is_none conditional_col || is_str conditional_col)
  && (is_none conditional_col || in_columns conditional_col df) = false →
  _update_conditional_information df conditional_col self
  = (Raise AssertionError, self).
Proof.
  intros Hc. unfold _update_conditional_information, mbind, ST_bind, lift, assert.
  destruct (is_none conditional_col || is_str conditional_col); [|done].
  simpl in Hc. by rewrite Hc.
Qed.

(** What the assignment of l.243 selects once both assertions passed. *)
Lemma conditional_information_establishes conditional_col col self :
  is_none conditional_col || is_str conditional_col = true →
  is_none conditional_col || in_columns conditional_col df = true →
  (if supplied_col conditional_col then Ok conditional_col
   else last_column df) = Ok col →
  _update_conditional_information df conditional_col self
  = (Ok tt,
     setattr (setattr self "conditional_col" col) "conditional_col_dist"
             (_get_column_distribution df col)).
Proof.
  intros H1 H2 Hsel.
  unfold _update_conditional_information, mbind, ST_bind, lift, assert.
  rewrite H1, H2.
  assert (Ht : truthy conditional_col = Ok (supplied_col conditional_col))
    by (by destruct conditional_col).
  rewrite Ht.
  destruct (supplied_col conditional_col).
  - injection Hsel as ->. unfold mret, ST_ret, set_attr, get_attr, getattr, setattr.
    by rewrite lookup_insert_eq.
  - unfold lift. rewrite Hsel.
    unfold set_attr, get_attr, getattr, setattr. by rewrite lookup_insert_eq.
Qed.

(** [fit] raises when the conditional column is rejected. *)
Lemma fit_rejects data column_names conditional_col resume self :
  _array_to_dataframe data column_names = Ok df →
  (is_none conditional_col || is_str conditional_col)
  && (is_none conditional_col || in_columns conditional_col df) = false →
  (fit data column_names conditional_col resume self).1 = Raise AssertionError.
Proof.
  intros Hdf Hc. unfold fit, mbind, ST_bind, lift. rewrite Hdf.
  unfold _update_column_information, mbind, ST_bind, set_attr.
  by rewrite conditional_information_rejects.
Qed.

Lemma conditional_information_inv conditional_col self self' :
  _update_conditional_information df conditional_col self = (Ok tt, self') →
  ∃ col,
    self' = setattr (setattr self "conditional_col" col)
                    "conditional_col_dist" (_get_column_distribution df col).
Proof.
  unfold _update_conditional_information, mbind, ST_bind, lift, assert.
  destruct (is_none conditional_col || is_str conditional_col); [|done].
  destruct (is_none conditional_col || in_columns conditional_col df); [|done].
  destruct (truthy conditional_col) as [[|]|]; [| |done].
  - unfold mret, ST_ret, set_attr, get_attr, getattr, setattr.
    rewrite lookup_insert_eq. intros [= <-]. by eexists.
  - unfold lift. destruct (last_column df) as [col|]; [|done].
    unfold set_attr, get_attr, getattr, setattr.
    rewrite lookup_insert_eq. intros [= <-]. by eexists.
Qed.

(** The object that [fit] leaves when it returns, on an object made by the
    constructor: the attributes that the sampling methods read. *)
Lemma fit_attributes llm data column_names conditional_col resume self0 self :
  GReaT llm = Ok self0 →
  _array_to_dataframe data column_names = Ok df →
  fit data column_names conditional_col resume self0 = (Ok tt, self) →
  ∃ s w col,
    self !! "llm" = Some (PyStr s)
    ∧ self !! "tokenizer" = Some (PyTokenizer s)
    ∧ self !! "model" = Some (PyModel s w)
    ∧ self !! "columns" = Some (PyList (df_columns df))
    ∧ self !! "num_cols"
      = Some (PyList (List.filter (is_number_dtype df) (df_columns df)))
    ∧ self !! "conditional_col" = Some col
    ∧ self !! "conditional_col_dist" = Some (_get_column_distribution df col).
Proof.
  unfold GReaT, __init__, from_pretrained_tokenizer, from_pretrained_model.
  destruct llm as [| | | |s| | | | |]; try done.
  destruct (hub s) as [w0|]; [|done]. simpl. intros [= <-] Hdf.
  unfold fit, mbind, ST_bind, lift. rewrite Hdf.
  unfold _update_column_information, mbind, ST_bind, set_attr.
  match goal with
  | |- context [_update_conditional_information df conditional_col ?g] =>
      destruct (_update_conditional_information df conditional_col g)
        as [[[]|] self1] eqn:Hcond; [|done]
  end.
  apply conditional_information_inv in Hcond as [col ->].
  unfold get_attr, getattr.
  match goal with
  | |- context [@lookup _ _ (gmap string pyval) _ "tokenizer" ?g] =>
      set (self1 := g)
  end.
  assert (self1 !! "tokenizer" = Some (PyTokenizer s)) as -> by (vm_compute; reflexivity).
  assert (self1 !! "experiment_dir" = Some (PyStr "trainer_great")) as ->
    by (vm_compute; reflexivity).
  assert (self1 !! "epochs" = Some (PyInt 100)) as -> by (vm_compute; reflexivity).
  assert (self1 !! "batch_size" = Some (PyInt 8)) as -> by (vm_compute; reflexivity).
  assert (self1 !! "train_hyperparameters" = Some (PyDict [])) as ->
    by (vm_compute; reflexivity).
  assert (self1 !! "model" = Some (PyModel s w0)) as -> by (vm_compute; reflexivity).
  cbn [state_dict fst snd].
  match goal with
  | |- context [trainer_train ?a ?b ?c ?d ?e ?f ?g ?h] =>
      destruct (trainer_train a b c d e f g h) as [w|]; [|done]
  end.
  unfold set_attr. intros [_ <-]%pair_equal_spec. exists s, w, col.
  subst self1. repeat split; vm_compute; reflexivity.
Qed.

(** On a table whose column names are distinct strings, every numeric
    column that [fit] records is exactly one column of the table. *)
Lemma label_eqb_str s c :
  is_str c = true → label_eqb (PyStr s) c = true ↔ c = PyStr s.
Proof.
  destruct c as [| | | |t| | | | |]; try discriminate. intros _.
  unfold label_eqb. simpl. rewrite String.eqb_eq.
  split; [by intros ->|by intros [= ->]].
Qed.

Lemma filter_singleton {A} (f : A → bool) (l : list A) (x : A) :
  NoDup l → x ∈ l → (∀ y, y ∈ l → f y = true ↔ y = x) →
  List.filter f l = [x].
Proof.
  induction l as [|a l IH]; intros Hnd Hx Hf.
  - by apply not_elem_of_nil in Hx.
  - apply NoDup_cons in Hnd as [Ha Hnd]. simpl.
    destruct (f a) eqn:Hfa.
    + assert (a = x) as -> by (apply Hf; [left|done]).
      f_equal. apply filter_none. intros y Hy%list_elem_of_In.
      destruct (f y) eqn:Hfy; [|done].
      assert (y = x) as -> by (apply Hf; [by right|done]). done.
    + apply IH; [done| |].
      * apply elem_of_cons in Hx as [->|Hx]; [|done].
        assert (f a = true) by (apply Hf; [left|done]). congruence.
      * intros y Hy. apply Hf. by right.
Qed.

Lemma numeric_labels_ok_fit :
  NoDup (df_columns df) →
  forallb is_str (df_columns df) = true →
  numeric_labels_ok (df_columns df)
    (List.filter (is_number_dtype df) (df_columns df)) = true.
Proof.
  intros Hnd Hstr. unfold numeric_labels_ok. apply forallb_forall.
  intros label [Hin _]%List.filter_In.
  assert (Hs : is_str label = true)
    by (by apply (proj1 (forallb_forall _ _) Hstr)).
  destruct label as [| | | |s| | | | |]; try discriminate.
  rewrite (filter_singleton _ _ (PyStr s)); [done|done| |].
  - by apply list_elem_of_In.
  - intros y Hy%list_elem_of_In. apply label_eqb_str.
    by apply (proj1 (forallb_forall _ _) Hstr).
Qed.

End Fit.

(** C7, at the input where the code departs from it: on a table whose
    columns are [""] and ["a"], [fit(df, conditional_col="")] passes both
    assertions ([""] is a string and a column) and returns, yet the
    conditional column it establishes is the last column ["a"], not the
    column [""] that was given. *)
Theorem fit_empty_name_takes_last_column :
  in_columns (PyStr "") Stub.blank_named = true
  ∧ (Stub.fit_on Stub.blank_named (PyStr "")).1 = Ok tt
  ∧ (Stub.fit_on Stub.blank_named (PyStr "")).2 !! "conditional_col"
    = Some (PyStr "a").
Proof. repeat split; vm_compute; reflexivity. Qed.

(** ** JSON round trips *)

Lemma pyval_nested_ind (P : pyval → Prop) :
  P PyNone →
  (∀ b, P (PyBool b)) →
  (∀ z, P (PyInt z)) →
  (∀ q, P (PyFloat q)) →
  (∀ s, P (PyStr s)) →
  (∀ l, Forall P l → P (PyList l)) →
  (∀ d, Forall (λ kv : pykey * pyval, P kv.2) d → P (PyDict d)) →
  (∀ a, P (PyArray a)) →
  (∀ s, P (PyTokenizer s)) →
  (∀ s w, P (PyModel s w)) →
  ∀ v, P v.
Proof.
  intros HNone HBool HInt HFloat HStr HList HDict HArray HTok HModel.
  fix IH 1. intros [| | | | |l|d| | |].
  1-5, 8-10: clear IH; auto.
  - apply HList. induction l as [|x l IHl]; constructor; [apply IH|apply IHl].
  - apply HDict. induction d as [|[k x] d IHd]; constructor; [apply IH|apply IHd].
Qed.

Lemma dict_set_fresh k v d :
  k ∉ map fst d → dict_set k v d = d ++ [(k, v)].
Proof.
  induction d as [|[k' v'] d IH]; [done|]. simpl. intros Hk.
  destruct (decide (k = k')) as [->|_]; [set_solver|].
  rewrite IH; [done|set_solver].
Qed.

Lemma dict_of_pairs_from acc l :
  NoDup (map fst (acc ++ l)) →
  foldl (λ d (kv : pykey * pyval), dict_set kv.1 kv.2 d) acc l = acc ++ l.
Proof.
  revert acc. induction l as [|[k v] l IH]; intros acc Hnd; simpl.
  - by rewrite app_nil_r.
  - rewrite dict_set_fresh.
    + rewrite IH; rewrite <- app_assoc; done.
    + rewrite map_app in Hnd. simpl in Hnd.
      apply NoDup_app in Hnd as (_ & Hdisj & _). intros Hin.
      apply (Hdisj k Hin). set_solver.
Qed.

Lemma dict_of_pairs_nodup l :
  NoDup (map fst l) → dict_of_pairs l = l.
Proof. intros Hnd. unfold dict_of_pairs. by rewrite dict_of_pairs_from. Qed.

Lemma nodup_keys_NoDup l : nodup_keys l = true → NoDup l.
Proof.
  induction l as [|k l IH]; simpl; [constructor|].
  intros [Hk Hl]%andb_prop. constructor; [|by apply IH].
  apply negb_true_iff in Hk. by apply bool_decide_eq_false in Hk.
Qed.

(** A value that JSON holds as it is comes back from [json.dump] and
    [json.load] unchanged. *)
Lemma json_stable_round_trip v :
  json_stable v = true → ∃ j, to_json v = Ok j ∧ of_json j = v.
Proof.
  induction v as [| |z|q|s|l IHl|d IHd| | |] using pyval_nested_ind;
    try discriminate.
  - by exists JNull.
  - by exists (JBool b).
  - by exists (JInt z).
  - by exists (JFloat q).
  - by exists (JStr s).
  - intros Hl. simpl in Hl.
    assert (Hitems : ∃ js,
              (fix items (l : list pyval) : result (list json) :=
                 match l with
                 | [] => Ok []
                 | x :: l' => j ← to_json x; js ← items l'; Ok (j :: js)
                 end) l = Ok js ∧ map of_json js = l).
    { induction IHl as [|x l Hx _ IH]; [by exists []|].
      simpl in Hl. apply andb_prop in Hl as [Hsx Hsl].
      destruct (Hx Hsx) as (j & Hj & Hback).
      destruct (IH Hsl) as (js & Hjs & Hbacks).
      exists (j :: js). rewrite Hj. simpl. rewrite Hjs. simpl.
      by rewrite Hback, Hbacks. }
    destruct Hitems as (js & Hjs & Hback).
    exists (JArr js). simpl. rewrite Hjs. simpl. by rewrite Hback.
  - intros Hd. simpl in Hd.
    apply andb_prop in Hd as [[Hkeys Hnd]%andb_prop Hvals].
    assert (Hitems : ∃ js,
              (fix items (d : list (pykey * pyval))
                 : result (list (string * json)) :=
                 match d with
                 | [] => Ok []
                 | (k, x) :: d' =>
                     j ← to_json x; js ← items d'; Ok ((json_key k, j) :: js)
                 end) d = Ok js
              ∧ map (λ kv : string * json,
                       let (k, x) := kv in (KStr k, of_json x)) js = d).
    { clear Hnd. induction IHd as [|[k x] d Hx _ IH]; [by exists []|].
      simpl in Hkeys, Hvals.
      apply andb_prop in Hkeys as [Hk Hkeys].
      apply andb_prop in Hvals as [Hsx Hvals].
      destruct (Hx Hsx) as (j & Hj & Hback). simpl in Hj, Hback.
      destruct (IH Hkeys Hvals) as (js & Hjs & Hbacks).
      exists ((json_key k, j) :: js). rewrite Hj. simpl. rewrite Hjs. simpl.
      rewrite Hback, Hbacks. by destruct k. }
    destruct Hitems as (js & Hjs & Hback).
    exists (JObj js). simpl. rewrite Hjs. simpl. rewrite Hback.
    by rewrite dict_of_pairs_nodup by by apply nodup_keys_NoDup.
Qed.

(** Every dumped item is the JSON of the value under the same key. *)
Lemma dump_items_spec l js :
  dump_items l = Ok js →
  Forall2 (λ (kv : string * pyval) (kj : string * json),
             kv.1 = kj.1 ∧ to_json kv.2 = Ok kj.2) l js.
Proof.
  revert js. induction l as [|[k v] l IH]; intros js; simpl.
  - intros [= <-]. constructor.
  - destruct (to_json v) as [j|] eqn:Hj; [|done]. simpl.
    destruct (dump_items l) as [js'|] eqn:Hjs; [|done]. simpl.
    intros [= <-]. constructor; [done|]. by apply IH.
Qed.

(** ** Persistence *)

Lemma config_model_paths_differ path :
  path +:+ "/config.json" ≠ path +:+ "/model.pt".
Proof. induction path as [|c path IH]; simpl; [discriminate|]. by intros [= ?]. Qed.

Section Persistence.
Context `{External}.

(** What a call of [save] that returned has done. *)
Lemma save_inv self path w w' :
  save self path w = (Ok tt, w') →
  ∃ j llm sd,
    save_attributes self = Ok j
    ∧ self !! "model" = Some (PyModel llm sd)
    ∧ path ∈ dirs w'
    ∧ (path +:+ "/config.json" ∉ dirs w')
    ∧ (path +:+ "/model.pt" ∉ dirs w')
    ∧ files w' = <[path +:+ "/model.pt" := FTorch llm sd]>
                   (<[path +:+ "/config.json" := FJson j]> (files w))
    ∧ opened w' = opened w.
Proof.
  unfold save, mbind, ST_bind, os_path_isdir, lift, getattr, torch_save,
    mbind, ST_bind.
  match goal with
  | |- context [(if bool_decide (path ∈ dirs w) then ?a else ?b) w] =>
      set (w1r := (if bool_decide (path ∈ dirs w) then a else b) w)
  end.
  assert (Hw1 : (∃ e, w1r = (Raise e, w))
                ∨ ∃ w1, w1r = (Ok tt, w1) ∧ path ∈ dirs w1
                        ∧ files w1 = files w ∧ opened w1 = opened w).
  { subst w1r. destruct (bool_decide_reflect (path ∈ dirs w)) as [Hin|Hnin].
    - right. eexists. by repeat split.
    - unfold os_mkdir. rewrite (bool_decide_eq_false_2 _ Hnin). simpl.
      destruct (bool_decide (is_Some (files w !! path))); [left; by eexists|].
      right. eexists. repeat split; simpl. set_solver. }
  destruct Hw1 as [[e ->] | (w1 & -> & Hdir & Hfiles & Hopened)]; [done|].
  unfold open_w, write_file.
  destruct (bool_decide_reflect (path +:+ "/config.json" ∈ dirs w1))
    as [|Hcfg]; [done|].
  destruct (save_attributes self) as [j|]; [|done]. simpl.
  destruct (self !! "model") as [model|]; [|done].
  destruct model as [| | | | | | | | |llm sd]; try done. simpl.
  destruct (bool_decide_reflect (path +:+ "/model.pt" ∈ dirs w1))
    as [|Hpt]; [done|].
  intros [= <-]. exists j, llm, sd. simpl. repeat split; try done.
  rewrite Hfiles. by rewrite !insert_insert_eq.
Qed.

Lemma foldl_setattr_notin (l : list (string * pyval)) :
  ∀ (g : gmap string pyval) k,
    k ∉ map fst l →
    foldl (λ g (kv : string * pyval), setattr g kv.1 kv.2) g l !! k = g !! k.
Proof.
  induction l as [|[k' v'] l IH]; intros g k Hk; simpl; [done|].
  rewrite IH by set_solver. unfold setattr.
  apply lookup_insert_ne. set_solver.
Qed.

Lemma foldl_setattr_in (l : list (string * pyval)) :
  ∀ (g : gmap string pyval) k v,
    NoDup (map fst l) → (k, v) ∈ l →
    foldl (λ g (kv : string * pyval), setattr g kv.1 kv.2) g l !! k = Some v.
Proof.
  induction l as [|[k' v'] l IH]; intros g k v Hnd Hin; simpl.
  - by apply not_elem_of_nil in Hin.
  - simpl in Hnd. apply NoDup_cons in Hnd as [Hk' Hnd].
    apply elem_of_cons in Hin as [[= -> ->] | Hin].
    + rewrite foldl_setattr_notin by done. apply lookup_insert_eq.
    + by apply IH.
Qed.

Lemma assoc_in (d : list (pykey * pyval)) k v :
  NoDup (map fst d) → (k, v) ∈ d → assoc k d = Some v.
Proof.
  induction d as [|[k' v'] d IH]; intros Hnd Hin; simpl.
  - by apply not_elem_of_nil in Hin.
  - simpl in Hnd. apply NoDup_cons in Hnd as [Hk' Hnd].
    apply elem_of_cons in Hin as [[= -> ->] | Hin].
    + by rewrite decide_True.
    + rewrite decide_False; [by apply IH|].
      intros ->. apply Hk'. apply list_elem_of_fmap. by exists (k', v).
Qed.

(** The attribute dictionary that [save] dumps. *)
Lemma save_attributes_inv self j :
  save_attributes self = Ok j →
  ∃ attributes js,
    j = JObj js
    ∧ dump_items (map_to_list attributes) = Ok js
    ∧ attributes !! "model" = None
    ∧ (∀ name, name ≠ "model" → name ≠ "tokenizer" →
               name ≠ "conditional_col_dist" →
               attributes !! name = self !! name)
    ∧ attributes !! "conditional_col_dist"
      = ndarray_to_list <$> self !! "conditional_col_dist".
Proof.
  unfold save_attributes, dict_pop, dict_get, json_dumps.
  destruct (self !! "tokenizer") as [tok|] eqn:Htok; [|done]. simpl.
  rewrite lookup_delete_ne by done.
  destruct (self !! "model") as [model|] eqn:Hmodel; [|done]. simpl.
  rewrite !lookup_delete_ne by done.
  destruct (self !! "conditional_col_dist") as [dist|] eqn:Hdist; [|done].
  simpl.
  set (attributes := if is_ndarray dist then _ else _).
  destruct (dump_items (map_to_list attributes)) as [js|] eqn:Hjs; [|done].
  intros [= <-]. exists attributes, js. repeat split; try done.
  - subst attributes. destruct (is_ndarray dist);
      rewrite ?lookup_insert_ne by done; apply lookup_delete_eq.
  - intros name H1 H2 H3. subst attributes. destruct (is_ndarray dist);
      rewrite ?lookup_insert_ne by done; by rewrite !lookup_delete_ne.
  - subst attributes. destruct (is_ndarray dist) eqn:Harr.
    + by rewrite lookup_insert_eq.
    + rewrite !lookup_delete_ne, Hdist by done. by destruct dist.
Qed.

Lemma dump_items_keys l js :
  dump_items l = Ok js → map fst js = map fst l.
Proof.
  intros Hd%dump_items_spec. induction Hd as [|[k v] [k' j] l js [Hk _] _ IH];
    [done|]. simpl in *. by rewrite Hk, IH.
Qed.

Lemma dump_items_lookup l js k v :
  dump_items l = Ok js → (k, v) ∈ l →
  ∃ j, to_json v = Ok j ∧ (k, j) ∈ js.
Proof.
  intros Hd%dump_items_spec Hin.
  induction Hd as [|[k1 v1] [k2 j2] l js [Hk Hj] _ IH]; simpl in *.
  - by apply not_elem_of_nil in Hin.
  - apply elem_of_cons in Hin as [[= -> ->] | Hin].
    + exists j2. subst. split; [done|]. apply elem_of_cons. by left.
    + destruct (IH Hin) as (j & Hj' & Hin'). exists j. split; [done|].
      apply elem_of_cons. by right.
Qed.

(** What [json.load] returns for a dumped attribute dictionary. *)
Lemma of_json_attributes js :
  NoDup (map fst js) →
  of_json (JObj js)
  = PyDict (map (λ kv : string * json, let (k, x) := kv in (KStr k, of_json x))
                js).
Proof.
  intros Hnd. simpl. rewrite dict_of_pairs_nodup; [done|].
  rewrite map_map.
  replace (map (λ x : string * json, (let (k, x0) := x in (KStr k, of_json x0)).1) js)
    with (map KStr (map fst js)).
  - assert (Inj (=) (=) KStr) by (by intros ?? [= ?]).
    by apply (NoDup_fmap_2 KStr).
  - rewrite map_map. apply map_ext. by intros [??].
Qed.

Lemma floats_json_stable a : forallb json_stable (map PyFloat a) = true.
Proof. by induction a. Qed.

Lemma to_json_not_ndarray v j : to_json v = Ok j → ndarray_to_list v = v.
Proof. by destruct v. Qed.

Lemma json_stable_not_ndarray v : json_stable v = true → ndarray_to_list v = v.
Proof. by destruct v. Qed.

Lemma init_ok s pretrained :
  hub s = Some pretrained →
  ∃ great, GReaT (PyStr s) = Ok great
           ∧ great !! "model" = Some (PyModel s pretrained).
Proof.
  intros Hhub. unfold GReaT, __init__, from_pretrained_tokenizer,
    from_pretrained_model. rewrite Hhub. simpl. eexists. split; [done|].
  unfold setattr. by rewrite !lookup_insert_ne, lookup_insert_eq by done.
Qed.

(** C3, as amended: after a [save(path)] that returned, [load_from_dir(path)]
    returns an object on which each of [columns], [num_cols],
    [conditional_col] and [conditional_col_dist] is what [json] makes of the
    original value: the same value when it is one that JSON holds as it is,
    and the list of its elements when it is an [ndarray]. *)
Theorem load_after_save self path w w' s sd pretrained :
  self !! "llm" = Some (PyStr s) →
  self !! "model" = Some (PyModel s sd) →
  hub s = Some pretrained →
  save self path w = (Ok tt, w') →
  ∃ great w'',
    load_from_dir path w' = (Ok great, w'')
    ∧ ∀ name v,
        name ∈ sampling_attributes → self !! name = Some v →
        (json_stable v = true → great !! name = Some v)
        ∧ (∀ a, v = PyArray a → great !! name = Some (PyList (map PyFloat a)))
        ∧ ∃ j, to_json (ndarray_to_list v) = Ok j
               ∧ great !! name = Some (of_json j).
Proof.
  intros Hllm Hmodel Hhub Hsave.
  destruct (save_inv _ _ _ _ Hsave)
    as (j & llm & sd' & Hattrs & Hmodel' & Hdir & Hcfg & Hpt & Hfiles & _).
  rewrite Hmodel in Hmodel'. injection Hmodel' as <- <-.
  destruct (save_attributes_inv _ _ Hattrs)
    as (attributes & js & -> & Hdump & Hnomodel & Hsame & Hccd).
  assert (Hkeys : map fst js = map fst (map_to_list attributes))
    by by apply dump_items_keys.
  assert (Hnd : NoDup (map fst js))
    by (rewrite Hkeys; apply NoDup_fst_map_to_list).
  assert (Hitem : ∀ k v, attributes !! k = Some v →
            ∃ jv, to_json v = Ok jv ∧ (k, jv) ∈ js).
  { intros k v Hk. apply (dump_items_lookup _ _ _ _ Hdump).
    by apply elem_of_map_to_list. }
  destruct (Hitem "llm" (PyStr s)) as (jllm & Hjllm & Hinllm).
  { by rewrite Hsame. }
  injection Hjllm as <-.
  destruct (init_ok _ _ Hhub) as (great0 & Hinit & Hmodel0).
  set (kvs := map (λ kj : string * json, (kj.1, of_json kj.2)) js).
  set (great1 := foldl (λ g (kv : string * pyval), setattr g kv.1 kv.2)
                       great0 kvs).
  assert (Hkvs : map fst kvs = map fst js).
  { subst kvs. rewrite map_map. by apply map_ext. }
  assert (Hmodel1 : great1 !! "model" = Some (PyModel s pretrained)).
  { subst great1. rewrite foldl_setattr_notin; [done|].
    rewrite Hkvs, Hkeys. intros Hin.
    apply list_elem_of_fmap in Hin as ([k v] & Hk & Hin). simpl in Hk. subst k.
    apply elem_of_map_to_list in Hin. congruence. }
  exists (setattr great1 "model" (PyModel s sd)).
  eexists. split.
  - unfold load_from_dir, mbind, ST_bind, os_path_isdir, lift.
    rewrite (bool_decide_eq_true_2 _ Hdir). simpl.
    unfold open_r. rewrite (bool_decide_eq_false_2 _ Hcfg), Hfiles.
    rewrite lookup_insert_ne by (apply not_eq_sym, config_model_paths_differ).
    rewrite lookup_insert_eq. unfold json_load.
    rewrite (of_json_attributes _ Hnd). unfold subscript.
    rewrite (assoc_in _ (KStr "llm") (PyStr s)).
    + rewrite Hinit. unfold items.
      replace (map (λ kv : pykey * pyval, (json_key kv.1, kv.2))
                 (map (λ kv : string * json,
                         let (k, x) := kv in (KStr k, of_json x)) js))
        with kvs
        by (subst kvs; rewrite map_map; apply map_ext; by intros [??]).
      fold great1. unfold getattr. rewrite Hmodel1. simpl.
      unfold torch_load, mbind, ST_bind, open_r. simpl.
      rewrite (bool_decide_eq_false_2 _ Hpt), <- Hfiles, Hfiles.
      rewrite lookup_insert_eq. unfold mret, ST_ret, lift, load_state_dict.
      simpl. by rewrite String.eqb_refl.
    + rewrite map_map.
      replace (map (λ x : string * json,
                      (let (k, x0) := x in (KStr k, of_json x0)).1) js)
        with (map KStr (map fst js))
        by (rewrite map_map; apply map_ext; by intros [??]).
      assert (Inj (=) (=) KStr) by (by intros ?? [= ?]).
      by apply (NoDup_fmap_2 KStr).
    + apply list_elem_of_fmap. by exists ("llm", JStr s).
  - intros name v Hname Hv.
    assert (Hneq : name ≠ "model" ∧ name ≠ "tokenizer").
    { unfold sampling_attributes in Hname. set_solver. }
    destruct Hneq as [Hnm Hnt].
    assert (Hattr : ∃ jv, to_json (ndarray_to_list v) = Ok jv
                          ∧ (name, jv) ∈ js).
    { destruct (decide (name = "conditional_col_dist")) as [->|Hnc].
      - apply Hitem. by rewrite Hccd, Hv.
      - destruct (Hitem name v) as (jv & Hjv & Hin); [by rewrite Hsame|].
        exists jv. by rewrite (to_json_not_ndarray _ _ Hjv). }
    destruct Hattr as (jv & Hjv & Hin).
    assert (Hgreat : setattr great1 "model" (PyModel s sd) !! name
                     = Some (of_json jv)).
    { unfold setattr. rewrite lookup_insert_ne by done. subst great1.
      apply foldl_setattr_in; [by rewrite Hkvs|].
      subst kvs. apply list_elem_of_fmap. by exists (name, jv). }
    split; [|split].
    + intros Hstable. rewrite Hgreat.
      destruct (json_stable_round_trip _ Hstable) as (j' & Hj' & Hback).
      rewrite (json_stable_not_ndarray _ Hstable) in Hjv. congruence.
    + intros a ->. rewrite Hgreat. simpl in Hjv.
      destruct (json_stable_round_trip (PyList (map PyFloat a)))
        as (j' & Hj' & Hback); [apply floats_json_stable|].
      simpl in Hj'. congruence.
    + by exists jv.
Qed.

(** C8: on a directory that exists, [save] emits the warning and writes
    both files over whatever was there, where it would otherwise have
    created the directory; on a directory that does not exist,
    [load_from_dir] raises at its assertion, the file system untouched and
    no file opened. *)
Theorem save_existing_load_absent self path w :
  (path ∈ dirs w →
   ∀ j llm sd,
     save_attributes self = Ok j →
     self !! "model" = Some (PyModel llm sd) →
     path +:+ "/config.json" ∉ dirs w →
     path +:+ "/model.pt" ∉ dirs w →
     save self path w
     = (Ok tt,
        Fs (dirs w)
           (<[path +:+ "/model.pt" := FTorch llm sd]>
              (<[path +:+ "/config.json" := FJson j]> (files w)))
           (("Directory " +:+ path
             +:+ " already exists and is overwritten now.") :: warnings w)
           (opened w)))
  ∧ (path ∉ dirs w → load_from_dir path w = (Raise AssertionError, w)).
Proof.
  split.
  - intros Hdir j llm sd Hattrs Hmodel Hcfg Hpt.
    unfold save, mbind, ST_bind, os_path_isdir, lift, getattr, torch_save,
      mbind, ST_bind.
    rewrite (bool_decide_eq_true_2 _ Hdir). simpl.
    unfold open_w. simpl. rewrite (bool_decide_eq_false_2 _ Hcfg).
    rewrite Hattrs, Hmodel. simpl.
    rewrite (bool_decide_eq_false_2 _ Hpt). unfold write_file. simpl.
    by rewrite !insert_insert_eq.
  - intros Hdir.
    unfold load_from_dir, mbind, ST_bind, os_path_isdir, lift.
    by rewrite (bool_decide_eq_false_2 _ Hdir).
Qed.

End Persistence.

(** * The worked example

    The theorems above, on the object fitted to the table [people] and the
    generator stubs of [Stub]. *)

Lemma start_sampler_exactly_one_raises_witness :
  _get_start_sampler Stub.fitted (PyStr "sex") PyNone = Raise ValueError
  ∧ _get_start_sampler Stub.fitted (PyStr "")
      (PyList [PyFloat 1; PyFloat 2]) = Raise ValueError
  ∧ _get_start_sampler Stub.fitted PyNone (PyDict []) = Raise ValueError.
Proof.
  split; [|split]; apply start_sampler_exactly_one_raises; reflexivity.
Defined.

Lemma start_sampler_falls_back_witness :
  _get_start_sampler Stub.fitted (PyStr "") PyNone
  = Ok (CategoricalStart (PyTokenizer "distilgpt2") (PyStr "sex")
          (PyDict [(KStr "M", PyFloat (1 # 2)); (KStr "F", PyFloat (1 # 2))]))
  ∧ _get_start_sampler Stub.fresh (PyStr "") PyNone
    = Ok (RandomStart (PyTokenizer "distilgpt2") PyNone).
Proof.
  split.
  - apply (start_sampler_falls_back Stub.fitted (PyTokenizer "distilgpt2")
             (PyStr "sex")
             (PyDict [(KStr "M", PyFloat (1 # 2)); (KStr "F", PyFloat (1 # 2))])
             (PyList [PyStr "age"; PyStr "sex"; PyStr "income"]));
      reflexivity.
  - apply (start_sampler_falls_back Stub.fresh (PyTokenizer "distilgpt2")
             PyNone PyNone PyNone); reflexivity.
Defined.

Lemma start_sampler_empty_dist_discarded_witness :
  _get_start_sampler Stub.fitted (PyStr "age") (PyList [])
  = Ok (CategoricalStart (PyTokenizer "distilgpt2") (PyStr "age")
          (PyDict [(KStr "M", PyFloat (1 # 2)); (KStr "F", PyFloat (1 # 2))])).
Proof.
  apply (start_sampler_empty_dist_discarded Stub.fitted
           (PyTokenizer "distilgpt2")
           (PyDict [(KStr "M", PyFloat (1 # 2)); (KStr "F", PyFloat (1 # 2))])
           (PyList [PyStr "age"; PyStr "sex"; PyStr "income"]));
    reflexivity.
Defined.

Lemma sample_nonpositive_witness :
  @sample Stub.good 0 Stub.fitted (-3) (PyStr "") PyNone 0.7 100 100 []
  = Some (Ok (Frame [PyStr "age"; PyStr "sex"; PyStr "income"] []), []).
Proof.
  apply (@sample_nonpositive Stub.good Stub.fitted _
           (PyTokenizer "distilgpt2") (PyModel "distilgpt2" "fine-tuned")
           eq_refl eq_refl eq_refl eq_refl
           (PyStr "sex")
           (PyDict [(KStr "M", PyFloat (1 # 2)); (KStr "F", PyFloat (1 # 2))])
           eq_refl eq_refl).
  lia.
Defined.

Lemma sample_quota_witness :
  ∃ fuel df log',
    (∀ fuel', fuel <= fuel' →
       @sample Stub.good fuel' Stub.fitted 2 (PyStr "") PyNone 0.7 3 100 []
       = Some (Ok df, log'))
    ∧ Z.of_nat (List.length (df_rows df)) = Z.max 0 2
    ∧ df_columns df = [PyStr "age"; PyStr "sex"; PyStr "income"]
    ∧ Forall (λ r, @valid_row Stub.good
                     [PyStr "age"; PyStr "sex"; PyStr "income"]
                     [PyStr "age"; PyStr "income"] r = true)
             (df_rows df).
Proof.
  apply (@sample_quota Stub.good Stub.fitted
           [PyStr "age"; PyStr "sex"; PyStr "income"]
           [PyStr "age"; PyStr "income"]
           (PyTokenizer "distilgpt2") (PyModel "distilgpt2" "fine-tuned")
           eq_refl eq_refl eq_refl eq_refl eq_refl eq_refl
           2%Z (PyStr "") PyNone
           (CategoricalStart (PyTokenizer "distilgpt2") (PyStr "sex")
              (PyDict [(KStr "M", PyFloat (1 # 2)); (KStr "F", PyFloat (1 # 2))]))
           0.7 3%Z 100%Z [] eq_refl).
  exists 1. vm_compute. discriminate.
Defined.

Lemma sample_never_returns_witness :
  @sample Stub.garbage 1000 Stub.fitted 1 (PyStr "") PyNone 0.7 100 100 []
  = None.
Proof.
  apply (@sample_never_returns Stub.garbage Stub.fitted
           [PyStr "age"; PyStr "sex"; PyStr "income"]
           [PyStr "age"; PyStr "income"]
           (PyTokenizer "distilgpt2") (PyModel "distilgpt2" "fine-tuned")
           eq_refl eq_refl eq_refl eq_refl eq_refl eq_refl
           1000 1%Z (PyStr "") PyNone
           (CategoricalStart (PyTokenizer "distilgpt2") (PyStr "sex")
              (PyDict [(KStr "M", PyFloat (1 # 2)); (KStr "F", PyFloat (1 # 2))]))
           0.7 100%Z 100%Z []).
  - lia.
  - reflexivity.
  - intros i input x Hx. simpl in Hx.
    apply in_map_iff in Hx as (s & <- & Hs).
    apply in_map_iff in Hs as (s' & <- & _).
    reflexivity.
Defined.

Lemma great_sample_one_generation_each_witness :
  @great_sample Stub.malformed Stub.fitted (inr ["age is"; "sex is"]) 0.7 100 []
  = (Ok (Frame [PyStr "age"; PyStr "sex"; PyStr "income"]
           (map (λ g, Stub.decode [PyStr "age"; PyStr "sex"; PyStr "income"]
                        (String.concat EmptyString g))
                [[Stub.malformed_text]; [Stub.malformed_text]])),
     [["age is"]; ["sex is"]])
  ∧ List.length [[Stub.malformed_text]; [Stub.malformed_text]]
    = List.length ["age is"; "sex is"].
Proof.
  apply (@great_sample_one_generation_each Stub.malformed Stub.fitted
           [PyStr "age"; PyStr "sex"; PyStr "income"]
           (PyTokenizer "distilgpt2") (PyModel "distilgpt2" "fine-tuned")
           eq_refl eq_refl eq_refl eq_refl eq_refl
           (inr ["age is"; "sex is"]) 0.7 100%Z []).
Defined.

(** The rows that [great_sample] returns in the example are not valid: the
    age is no number and the income is missing. *)
Example great_sample_keeps_malformed_rows :
  map (λ r : pyval → pyval,
         (map r [PyStr "age"; PyStr "sex"; PyStr "income"],
          @valid_row Stub.malformed
            [PyStr "age"; PyStr "sex"; PyStr "income"]
            [PyStr "age"; PyStr "income"] r))
      (match @great_sample Stub.malformed Stub.fitted
               (inr ["age is"; "sex is"]) 0.7 100 [] with
       | (Ok df, _) => df_rows df
       | _ => []
       end)
  = [([PyStr "forty"; PyStr "F"; PyNone], false);
     ([PyStr "forty"; PyStr "F"; PyNone], false)].
Proof. vm_compute. reflexivity. Qed.

(** The worked example of the specification: with the generator that always
    emits the same complete row, [sample(2)] returns that row twice. *)
Example sample_two_rows :
  match @sample Stub.good 1 Stub.fitted 2 (PyStr "") PyNone 0.7 3 100 [] with
  | Some (Ok df, log) =>
      Some (map (λ r : pyval → pyval, map r (df_columns df)) (df_rows df),
            List.length log)
  | _ => None
  end
  = Some ([[PyStr "30"; PyStr "M"; PyStr "50000"];
           [PyStr "30"; PyStr "M"; PyStr "50000"]], 1).
Proof. vm_compute. reflexivity. Qed.

Lemma save_existing_load_absent_witness :
  @save Stub.fitted "out" Stub.out_exists
  = (Ok tt,
     Fs {["out"]}
        (<["out/model.pt" := FTorch "distilgpt2" "fine-tuned"]>
           (<["out/config.json" := FJson Stub.config]> ∅))
        ["Directory out already exists and is overwritten now."] [])
  ∧ @load_from_dir Stub.good "gone" Stub.out_exists
    = (Raise AssertionError, Stub.out_exists).
Proof.
  split.
  - apply (proj1 (@save_existing_load_absent Stub.good Stub.fitted "out"
                    Stub.out_exists)).
    + vm_compute. reflexivity.
    + reflexivity.
    + reflexivity.
    + intros Hin. vm_compute in Hin. discriminate.
    + intros Hin. vm_compute in Hin. discriminate.
  - apply (proj2 (@save_existing_load_absent Stub.good Stub.fitted "gone"
                    Stub.out_exists)).
    intros Hin. vm_compute in Hin. discriminate.
Defined.

Lemma load_after_save_witness :
  ∃ great w'',
    @load_from_dir Stub.good "out" (@save Stub.fitted "out" Stub.empty_fs).2
    = (Ok great, w'')
    ∧ ∀ name v,
        name ∈ sampling_attributes → Stub.fitted !! name = Some v →
        (json_stable v = true → great !! name = Some v)
        ∧ (∀ a, v = PyArray a → great !! name = Some (PyList (map PyFloat a)))
        ∧ ∃ j, to_json (ndarray_to_list v) = Ok j
               ∧ great !! name = Some (of_json j).
Proof.
  apply (@load_after_save Stub.good Stub.fitted "out" Stub.empty_fs _
           "distilgpt2" "fine-tuned" "pretrained");
    vm_compute; reflexivity.
Defined.

(** The four attributes of the worked example are values that JSON holds as
    they are. *)
Example fitted_attributes_stable :
  map (λ name, json_stable <$> Stub.fitted !! name) sampling_attributes
  = [Some true; Some true; Some true; Some true].
Proof. vm_compute. reflexivity. Qed.

(** C1, as the specification words it, fails for a negative count:
    [sample(-1)] returns the empty table, and no table has [-1] rows. *)
Lemma sample_quota_counterexample :
  @sample Stub.good 0 Stub.fitted (-1) (PyStr "") PyNone 0.7 3 100 []
  = Some (Ok (Frame [PyStr "age"; PyStr "sex"; PyStr "income"] []), [])
  ∧ ¬ @quota_claim Stub.good Stub.fitted (-1) (PyStr "") PyNone 0.7 3 100 [].
Proof.
  split; [vm_compute; reflexivity|].
  intros Hclaim.
  destruct (Hclaim [PyStr "age"; PyStr "sex"; PyStr "income"]
                   [PyStr "age"; PyStr "income"]
                   (PyModel "distilgpt2" "fine-tuned")
                   (PyTokenizer "distilgpt2")
                   (CategoricalStart (PyTokenizer "distilgpt2") (PyStr "sex")
                      (PyDict [(KStr "M", PyFloat (1 # 2));
                               (KStr "F", PyFloat (1 # 2))]))
                   (Frame [PyStr "age"; PyStr "sex"; PyStr "income"] [])
                   eq_refl eq_refl eq_refl eq_refl eq_refl)
    as (fuel & df & log' & _ & Hrows & _).
  - exists 0. simpl. lia.
  - lia.
Qed.

Lemma conditional_col_dist_named :
  "conditional_col_dist" ∈ sampling_attributes.
Proof. apply list_elem_of_In. simpl. tauto. Qed.

(** C3, as the specification words it, fails when the conditional column
    holds integers: the distribution fitted on [age] has the keys [30] and
    [40], and comes back from [save] and [load_from_dir] with the keys
    ["30"] and ["40"]. *)
Lemma persistence_counterexample :
  Stub.fitted_on_age !! "conditional_col_dist"
  = Some (PyDict [(KInt 30, PyFloat (1 # 2)); (KInt 40, PyFloat (1 # 2))])
  ∧ (∀ great w'',
       @load_from_dir Stub.good "out"
         (@save Stub.fitted_on_age "out" Stub.empty_fs).2 = (Ok great, w'') →
       great !! "conditional_col_dist"
       = Some (PyDict [(KStr "30", PyFloat (1 # 2));
                       (KStr "40", PyFloat (1 # 2))]))
  ∧ ¬ @persistence_claim Stub.good Stub.fitted_on_age "out" Stub.empty_fs.
Proof.
  assert (Horiginal : Stub.fitted_on_age !! "conditional_col_dist"
            = Some (PyDict [(KInt 30, PyFloat (1 # 2));
                            (KInt 40, PyFloat (1 # 2))]))
    by (vm_compute; reflexivity).
  assert (Hloaded : ∀ great w'',
            @load_from_dir Stub.good "out"
              (@save Stub.fitted_on_age "out" Stub.empty_fs).2
            = (Ok great, w'') →
            great !! "conditional_col_dist"
            = Some (PyDict [(KStr "30", PyFloat (1 # 2));
                            (KStr "40", PyFloat (1 # 2))])).
  { assert (Hc : match (@load_from_dir Stub.good "out"
                           (@save Stub.fitted_on_age "out" Stub.empty_fs).2).1
                   with
                   | Ok great => great !! "conditional_col_dist"
                   | Raise _ => None
                   end
                   = Some (PyDict [(KStr "30", PyFloat (1 # 2));
                                   (KStr "40", PyFloat (1 # 2))]))
      by (vm_compute; reflexivity).
    intros great w'' Hl. rewrite Hl in Hc. exact Hc. }
  split; [exact Horiginal|]. split; [exact Hloaded|].
  intros Hclaim.
  assert (Hsave : @save Stub.fitted_on_age "out" Stub.empty_fs
                  = (Ok tt, (@save Stub.fitted_on_age "out" Stub.empty_fs).2))
    by (vm_compute; reflexivity).
  destruct (Hclaim _ Hsave) as (great & w'' & Hl & Hsame).
  pose proof (Hloaded _ _ Hl) as Hnew.
  pose proof (Hsame _ conditional_col_dist_named) as Heq.
  rewrite Hnew, Horiginal in Heq. discriminate Heq.
Qed.

(** An [ndarray] distribution comes back as a list, which selects another
    start sampler than the array did. *)
Example ndarray_comes_back_as_list :
  let self := setattr Stub.fitted "conditional_col_dist"
                      (PyArray [50000 # 1; 10000 # 1]) in
  (∀ great w'',
     @load_from_dir Stub.good "out" (@save self "out" Stub.empty_fs).2
     = (Ok great, w'') →
     great !! "conditional_col_dist"
     = Some (PyList [PyFloat (50000 # 1); PyFloat (10000 # 1)]))
  ∧ _get_start_sampler self (PyStr "") PyNone
    = Ok (RandomStart (PyTokenizer "distilgpt2")
            (PyList [PyStr "age"; PyStr "sex"; PyStr "income"])).
Proof.
  intros self. split; [|vm_compute; reflexivity].
  assert (Hc : match (@load_from_dir Stub.good "out"
                        (@save self "out" Stub.empty_fs).2).1 with
               | Ok great => great !! "conditional_col_dist"
               | Raise _ => None
               end
               = Some (PyList [PyFloat (50000 # 1); PyFloat (10000 # 1)]))
    by (vm_compute; reflexivity).
  intros great w'' Hl. rewrite Hl in Hc. exact Hc.
Qed.

(** * Further properties of the pipeline *)

(** ** The start sampler and the arguments of [sample] *)

Section StartArguments.
Context `{External}.

Variable self : gmap string pyval.

Lemma exactly_one_value_error start_col start_col_dist :
  exactly_one_supplied start_col start_col_dist = true →
  _get_start_sampler self start_col start_col_dist = Raise ValueError.
Proof.
  unfold exactly_one_supplied, _get_start_sampler.
  intros [[Hc Hd]%andb_prop | [Hc Hd]%andb_prop]%orb_prop.
  - rewrite (truthy_supplied _ Hc). simpl. by rewrite Hd.
  - rewrite (truthy_default _ Hc). simpl.
    apply negb_true_iff in Hd. by rewrite Hd.
Qed.

(** X1: when exactly one of start column and start distribution is given,
    [sample] raises [ValueError] before anything is generated, whatever the
    number of samples asked for. *)
Theorem sample_exactly_one_raises fuel n_samples start_col start_col_dist
    temperature k max_length log :
  exactly_one_supplied start_col start_col_dist = true →
  sample fuel self n_samples start_col start_col_dist temperature k
         max_length log
  = Some (Raise ValueError, log).
Proof.
  intros Hone. unfold sample, sample_setup.
  by rewrite (exactly_one_value_error _ _ Hone).
Qed.

(** X2: a start column given together with a distribution is rejected by an
    assertion when the column is no string, or the distribution is neither
    a dictionary nor a list. *)
Theorem start_sampler_rejects_types start_col start_col_dist :
  truthy start_col = Ok true →
  is_none start_col_dist = false →
  is_str start_col && (is_dict start_col_dist || is_list start_col_dist)
  = false →
  _get_start_sampler self start_col start_col_dist = Raise AssertionError.
Proof.
  intros Ht Hd Htypes. unfold _get_start_sampler. rewrite Ht. simpl.
  rewrite Hd. simpl.
  assert (Hnone : is_none start_col = false)
    by (destruct start_col; try done; discriminate).
  rewrite Hnone. simpl.
  destruct (is_str start_col); simpl in *; [|done].
  by rewrite Htypes.
Qed.

Variable tokenizer : pyval.
Hypothesis Htokenizer : self !! "tokenizer" = Some tokenizer.

(** X3: a non-empty start column given together with a non-empty dictionary
    or list selects the sampler on the caller's column and distribution;
    nothing that was fitted is read. *)
Theorem start_sampler_uses_arguments s start_col_dist :
  str_nonempty s = true →
  truthy start_col_dist = Ok true →
  is_dict start_col_dist || is_list start_col_dist = true →
  _get_start_sampler self (PyStr s) start_col_dist
  = Ok (if is_dict start_col_dist
        then CategoricalStart tokenizer (PyStr s) start_col_dist
        else ContinuousStart tokenizer (PyStr s) start_col_dist).
Proof using Htokenizer.
  intros Hs Ht Hshape. unfold _get_start_sampler. simpl. rewrite Hs.
  assert (Hnone : is_none start_col_dist = false)
    by (by destruct start_col_dist).
  rewrite Hnone. simpl. rewrite Hshape, Ht. simpl.
  unfold getattr. rewrite Htokenizer. simpl.
  destruct (is_dict start_col_dist) eqn:Hdict; [done|].
  simpl in Hshape. by rewrite Hshape.
Qed.

End StartArguments.

(** ** The quota loop *)

Section QuotaLoop.
Context `{External}.

Variable self : gmap string pyval.
Variables columns num_cols : list pyval.
Variables tokenizer model : pyval.
Hypothesis Hcolumns : self !! "columns" = Some (PyList columns).
Hypothesis Hnum_cols : self !! "num_cols" = Some (PyList num_cols).
Hypothesis Htokenizer : self !! "tokenizer" = Some tokenizer.
Hypothesis Hmodel : self !! "model" = Some model.
Hypothesis Hmodel_ok : is_model model = true.
Hypothesis Hlabels : numeric_labels_ok columns num_cols = true.

Notation valid_rows_of great_start temperature k max_length :=
  (valid_generated model tokenizer great_start temperature k max_length
                   columns num_cols).

(** X4: one run of the loop body on a table of valid rows makes one
    generation call, keeps every row of the table and appends exactly the
    valid rows of the batch, in the order of the batch. *)
Theorem sample_body_appends_valid_rows great_start temperature k max_length
    rows log :
  forallb (valid_row columns num_cols) rows = true →
  sample_body self great_start temperature k max_length
              (Frame columns rows) log
  = (Ok (Frame columns
           (rows ++ List.filter (valid_row columns num_cols)
                      (decoded_batch model tokenizer great_start temperature
                         k max_length columns (List.length log)))),
     log ++ [get_start_tokens (List.length log) great_start k]).
Proof using Hnum_cols Htokenizer Hmodel Hmodel_ok Hlabels.
  intros Hvalid.
  rewrite (sample_body_ok self columns num_cols tokenizer model)
    by assumption.
  by rewrite List.filter_app, (filter_all _ _ Hvalid).
Qed.

Lemma start_inputs_S great_start k first count :
  start_inputs great_start k first (S count)
  = start_inputs great_start k first count
    ++ [get_start_tokens (first + count) great_start k].
Proof. unfold start_inputs. by rewrite seq_S, map_app. Qed.

Lemma start_inputs_length great_start k first count :
  List.length (start_inputs great_start k first count) = count.
Proof. unfold start_inputs. by rewrite length_map, length_seq. Qed.

(** The loop, from the table after [j] calls: it stops at the first number
    of calls whose valid rows meet the quota. *)
Lemma sample_loop_trace great_start n_samples temperature k max_length
    first count :
  ∀ j log,
    List.length log = first + j →
    (n_samples ≤ Z.of_nat (List.length
       (valid_rows_of great_start temperature k max_length first (j + count))))%Z →
    ∃ extra,
      (∀ fuel, (extra ≤ fuel)%nat →
         sample_loop fuel self great_start n_samples temperature k max_length
           (Frame columns
              (valid_rows_of great_start temperature k max_length first j))
           log
         = Some (Ok (Frame columns
                       (valid_rows_of great_start temperature k max_length
                                      first (j + extra))),
                 log ++ start_inputs great_start k (first + j) extra))
      ∧ (n_samples ≤ Z.of_nat (List.length
           (valid_rows_of great_start temperature k max_length first
                          (j + extra))))%Z
      ∧ (∀ i, (j ≤ i < j + extra)%nat →
              (Z.of_nat (List.length
                 (valid_rows_of great_start temperature k max_length first i))
               < n_samples)%Z).
Proof using Hnum_cols Htokenizer Hmodel Hmodel_ok Hlabels.
  induction count as [|count IH]; intros j log Hlen Hn.
  - rewrite Nat.add_0_r in Hn. exists 0. rewrite Nat.add_0_r.
    split; [|split; [done|intros; lia]].
    intros fuel _. unfold start_inputs. simpl. rewrite app_nil_r.
    by apply sample_loop_done.
  - destruct (Z.le_gt_cases n_samples
                (Z.of_nat (List.length
                   (valid_rows_of great_start temperature k max_length first j))))
      as [Hdone | Hmore].
    + exists 0. rewrite Nat.add_0_r. split; [|split; [done|intros; lia]].
      intros fuel _. unfold start_inputs. simpl. rewrite app_nil_r.
      by apply sample_loop_done.
    + destruct (IH (S j)
                  (log ++ [get_start_tokens (List.length log) great_start k]))
        as (extra & Hrun & Hquota & Hless).
      * rewrite length_app. simpl. lia.
      * by replace (S j + count) with (j + S count) by lia.
      * exists (S extra).
        replace (j + S extra) with (S j + extra) by lia.
        split; [|split; [done|]].
        -- intros [|fuel] Hfuel; [lia|]. simpl.
           destruct (Z.gtb_spec n_samples
                       (Z.of_nat (List.length
                          (valid_rows_of great_start temperature k max_length
                                         first j)))); [|lia].
           rewrite (sample_body_step self columns num_cols tokenizer model
                      Hnum_cols Htokenizer Hmodel Hmodel_ok Hlabels
                      _ _ _ _ _ _ _ Hlen).
           rewrite Hrun by lia. do 2 f_equal.
           rewrite <- app_assoc. f_equal.
           unfold start_inputs. simpl. rewrite Hlen. f_equal.
           by replace (first + S j) with (S (first + j)) by lia.
        -- intros i Hi. destruct (decide (i = j)) as [->|]; [lia|].
           apply Hless. lia.
Qed.

(** X5: when generation yields enough valid rows, [sample] stops at the
    first call after which the quota is met: it returns the first
    [n_samples] valid rows in the order they were generated, and has made
    exactly that number of generation calls. *)
Theorem sample_first_valid_rows n_samples start_col start_col_dist
    great_start temperature k max_length log :
  _get_start_sampler self start_col start_col_dist = Ok great_start →
  (∃ count,
     (n_samples ≤ Z.of_nat (List.length
        (valid_rows_of great_start temperature k max_length
                       (List.length log) count)))%Z) →
  ∃ calls,
    (∀ fuel, (calls ≤ fuel)%nat →
       sample fuel self n_samples start_col start_col_dist temperature k
              max_length log
       = Some (Ok (Frame columns
                     (firstn (Z.to_nat n_samples)
                        (valid_rows_of great_start temperature k max_length
                                       (List.length log) calls))),
               log ++ start_inputs great_start k (List.length log) calls))
    ∧ (n_samples ≤ Z.of_nat (List.length
         (valid_rows_of great_start temperature k max_length
                        (List.length log) calls)))%Z
    ∧ (∀ i, (i < calls)%nat →
            (Z.of_nat (List.length
               (valid_rows_of great_start temperature k max_length
                              (List.length log) i))
             < n_samples)%Z).
Proof using Hcolumns Hnum_cols Htokenizer Hmodel Hmodel_ok Hlabels.
  intros Hs [count Hcount].
  destruct (sample_loop_trace great_start n_samples temperature k max_length
              (List.length log) count 0 log) as (calls & Hrun & Hquota & Hless);
    [lia | done |].
  simpl in Hrun, Hquota, Hless. rewrite Nat.add_0_r in Hrun.
  exists calls. split; [|split; [done|intros; apply Hless; lia]].
  intros fuel Hfuel. unfold sample.
  rewrite (sample_setup_ok self columns model Hcolumns Hmodel Hmodel_ok
             _ _ _ Hs).
  change (Frame columns [])
    with (Frame columns
            (valid_rows_of great_start temperature k max_length
                           (List.length log) 0)).
  rewrite (Hrun _ Hfuel). unfold df_head. simpl.
  destruct (Z.leb_spec 0 n_samples) as [|Hneg]; [done|].
  destruct calls as [|calls]; [by rewrite !firstn_nil|].
  specialize (Hless 0 ltac:(lia)). simpl in Hless. lia.
Qed.

End QuotaLoop.

(** ** What [fit] leaves behind *)

Section FitEffects.
Context `{External}.

Variable df : DataFrame.

(** The three ways [_update_conditional_information] ends. *)
Lemma conditional_information_cases conditional_col self :
  _update_conditional_information df conditional_col self
  = if (is_none conditional_col || is_str conditional_col)
       && (is_none conditional_col || in_columns conditional_col df)
    then match (if supplied_col conditional_col then Ok conditional_col
                else last_column df) with
         | Ok col =>
             (Ok tt,
              setattr (setattr self "conditional_col" col)
                      "conditional_col_dist" (_get_column_distribution df col))
         | Raise e => (Raise e, self)
         end
    else (Raise AssertionError, self).
Proof.
  destruct ((is_none conditional_col || is_str conditional_col)
            && (is_none conditional_col || in_columns conditional_col df))
    eqn:Hchecks.
  - apply andb_prop in Hchecks as [H1 H2].
    destruct (if supplied_col conditional_col then Ok conditional_col
              else last_column df) as [col|e] eqn:Hsel.
    + by apply conditional_information_establishes.
    + unfold _update_conditional_information, mbind, ST_bind, lift, assert.
      rewrite H1, H2.
      assert (Ht : truthy conditional_col = Ok (supplied_col conditional_col))
        by (by destruct conditional_col).
      rewrite Ht. destruct (supplied_col conditional_col); [done|].
      unfold lift. by rewrite Hsel.
  - by apply conditional_information_rejects.
Qed.

(** X6: a [fit] that rejects the conditional column has already replaced
    [columns] and [num_cols] by those of the new table; every other
    attribute, the conditional column and distribution of an earlier fit
    among them, is as before. *)
Theorem fit_rejected_after_columns data column_names conditional_col resume
    self :
  _array_to_dataframe data column_names = Ok df →
  (is_none conditional_col || is_str conditional_col)
  && (is_none conditional_col || in_columns conditional_col df) = false →
  fit data column_names conditional_col resume self
  = (Raise AssertionError, with_columns df self).
Proof.
  intros Hdf Hc. unfold fit, mbind, ST_bind, lift. rewrite Hdf.
  unfold _update_column_information, mbind, ST_bind, set_attr.
  rewrite conditional_information_cases, Hc. reflexivity.
Qed.

(** X7: [fit] on a table without columns and without a conditional column
    raises [IndexError] at [df.columns[-1]]. *)
Theorem fit_no_columns data column_names resume self :
  _array_to_dataframe data column_names = Ok df →
  df_columns df = [] →
  fit data column_names PyNone resume self
  = (Raise IndexError, with_columns df self).
Proof.
  intros Hdf Hempty. unfold fit, mbind, ST_bind, lift. rewrite Hdf.
  unfold _update_column_information, mbind, ST_bind, set_attr.
  rewrite conditional_information_cases. simpl.
  unfold last_column, with_columns. rewrite Hempty. reflexivity.
Qed.

(** X8: a [fit] that returns has established the given column when it is a
    non-empty name, and the last column otherwise, together with the
    distribution of that column and the columns of the table; besides
    these four attributes and [model], the object is as before. *)
Theorem fit_establishes data column_names conditional_col resume self self' :
  _array_to_dataframe data column_names = Ok df →
  fit data column_names conditional_col resume self = (Ok tt, self') →
  ∃ col,
    (if supplied_col conditional_col then Ok conditional_col
     else last_column df) = Ok col
    ∧ self' !! "conditional_col" = Some col
    ∧ self' !! "conditional_col_dist" = Some (_get_column_distribution df col)
    ∧ self' !! "columns" = Some (PyList (df_columns df))
    ∧ self' !! "num_cols"
      = Some (PyList (List.filter (is_number_dtype df) (df_columns df)))
    ∧ ∀ name,
        name ∉ ["columns"; "num_cols"; "conditional_col";
                "conditional_col_dist"; "model"] →
        self' !! name = self !! name.
Proof.
  intros Hdf. unfold fit, mbind, ST_bind, lift. rewrite Hdf.
  unfold _update_column_information, mbind, ST_bind, set_attr.
  rewrite conditional_information_cases.
  destruct ((is_none conditional_col || is_str conditional_col)
            && (is_none conditional_col || in_columns conditional_col df));
    [|done].
  destruct (if supplied_col conditional_col then Ok conditional_col
            else last_column df) as [col|e]; [|done].
  unfold get_attr.
  repeat match goal with
         | |- context [getattr ?g ?n] =>
             destruct (getattr g n); [|done]
         end.
  cbn [fst snd].
  match goal with
  | |- context [state_dict ?m] => destruct (state_dict m) as [sd|]; [|done]
  end.
  match goal with
  | |- context [trainer_train ?a ?b ?c ?d ?e ?f ?g ?h] =>
      destruct (trainer_train a b c d e f g h) as [w|]; [|done]
  end.
  intros [_ <-]%pair_equal_spec. exists col. unfold setattr.
  split; [done|].
  repeat split.
  - by rewrite !lookup_insert_ne, lookup_insert_eq by done.
  - by rewrite !lookup_insert_ne, lookup_insert_eq by done.
  - by rewrite !lookup_insert_ne, lookup_insert_eq by done.
  - by rewrite !lookup_insert_ne, lookup_insert_eq by done.
  - intros name Hname. rewrite !lookup_insert_ne; [done|..];
      intros <-; apply Hname; set_solver.
Qed.

End FitEffects.

(** ** Sampling from a fitted object *)

Section FittedSampling.
Context `{External}.

Lemma sample_loop_never_raises self columns num_cols tokenizer model
    great_start n_samples temperature k max_length :
  self !! "num_cols" = Some (PyList num_cols) →
  self !! "tokenizer" = Some tokenizer →
  self !! "model" = Some model →
  is_model model = true →
  numeric_labels_ok columns num_cols = true →
  ∀ fuel rows log,
    sample_loop fuel self great_start n_samples temperature k max_length
                (Frame columns rows) log = None
    ∨ ∃ rows' log',
        sample_loop fuel self great_start n_samples temperature k max_length
                    (Frame columns rows) log
        = Some (Ok (Frame columns rows'), log').
Proof.
  intros Hnum Htok Hmodel Hok Hlabels.
  induction fuel as [|fuel IH]; intros rows log; simpl;
    destruct (n_samples >? Z.of_nat (List.length rows))%Z; eauto.
  rewrite (sample_body_ok self columns num_cols tokenizer model) by assumption.
  apply IH.
Qed.


End FittedSampling.

(** ** Saving *)

Lemma path_suffix_differs path suffix :
  suffix ≠ EmptyString → path +:+ suffix ≠ path.
Proof.
  intros Hs. induction path as [|c path IH]; simpl; [done|].
  by intros [= ?].
Qed.

Section Saving.
Context `{External}.

Variable self : gmap string pyval.
Variable path : string.

Lemma save_into_existing w j llm sd :
  path ∈ dirs w →
  save_attributes self = Ok j →
  self !! "model" = Some (PyModel llm sd) →
  path +:+ "/config.json" ∉ dirs w →
  path +:+ "/model.pt" ∉ dirs w →
  save self path w
  = (Ok tt,
     Fs (dirs w)
        (<[path +:+ "/model.pt" := FTorch llm sd]>
           (<[path +:+ "/config.json" := FJson j]> (files w)))
        (("Directory " +:+ path
          +:+ " already exists and is overwritten now.") :: warnings w)
        (opened w)).
Proof.
  intros Hdir Hattrs Hmodel Hcfg Hpt.
  unfold save, mbind, ST_bind, os_path_isdir, lift, getattr, torch_save,
    mbind, ST_bind.
  rewrite (bool_decide_eq_true_2 _ Hdir). simpl.
  unfold open_w. simpl. rewrite (bool_decide_eq_false_2 _ Hcfg).
  rewrite Hattrs, Hmodel. simpl.
  rewrite (bool_decide_eq_false_2 _ Hpt). unfold write_file. simpl.
  by rewrite !insert_insert_eq.
Qed.


(** X11: [save] onto a path that names a file raises [FileExistsError] and
    writes nothing. *)
Theorem save_onto_file w :
  path ∉ dirs w →
  is_Some (files w !! path) →
  save self path w = (Raise FileExistsError, w).
Proof.
  intros Hdir Hfile.
  unfold save, mbind, ST_bind, os_path_isdir.
  rewrite (bool_decide_eq_false_2 _ Hdir). unfold os_mkdir.
  rewrite (bool_decide_eq_false_2 _ Hdir).
  by rewrite (bool_decide_eq_true_2 _ Hfile).
Qed.

(** X12: when an attribute cannot be dumped, [save] into an existing
    directory raises after it has truncated [config.json]: the earlier
    configuration is lost, [model.pt] and every other file are as before. *)
Theorem save_failed_dump w e :
  path ∈ dirs w →
  path +:+ "/config.json" ∉ dirs w →
  save_attributes self = Raise e →
  save self path w
  = (Raise e,
     Fs (dirs w)
        (<[path +:+ "/config.json" := FIncomplete]> (files w))
        (("Directory " +:+ path
          +:+ " already exists and is overwritten now.") :: warnings w)
        (opened w)).
Proof.
  intros Hdir Hcfg Hattrs.
  unfold save, mbind, ST_bind, os_path_isdir, lift.
  rewrite (bool_decide_eq_true_2 _ Hdir). simpl.
  unfold open_w. simpl. rewrite (bool_decide_eq_false_2 _ Hcfg).
  by rewrite Hattrs.
Qed.

(** The entries of the configuration that [save] dumps. *)
Lemma config_entries j :
  save_attributes self = Ok j →
  ∃ js,
    j = JObj js
    ∧ NoDup (map fst js)
    ∧ ∀ name,
        name ∈ map fst js
        ↔ is_Some (self !! name) ∧ name ≠ "tokenizer" ∧ name ≠ "model".
Proof.
  unfold save_attributes, dict_pop, dict_get, json_dumps.
  destruct (self !! "tokenizer") as [tok|] eqn:Htok; [|done]. simpl.
  rewrite lookup_delete_ne by done.
  destruct (self !! "model") as [model|] eqn:Hmodel; [|done]. simpl.
  rewrite !lookup_delete_ne by done.
  destruct (self !! "conditional_col_dist") as [dist|] eqn:Hdist; [|done].
  simpl.
  set (attributes := if is_ndarray dist then _ else _).
  assert (Hdom : ∀ name, is_Some (attributes !! name)
                         ↔ is_Some (self !! name)
                           ∧ name ≠ "tokenizer" ∧ name ≠ "model").
  { intros name. subst attributes.
    assert (Hdel : is_Some (delete "model" (delete "tokenizer" self) !! name)
                   ↔ is_Some (self !! name)
                     ∧ name ≠ "tokenizer" ∧ name ≠ "model").
    { rewrite !lookup_delete_is_Some. naive_solver. }
    destruct (is_ndarray dist); [|done].
    rewrite lookup_insert_is_Some, Hdel.
    split; [intros [<-|[_ ?]]|]; [by rewrite Hdist; eauto|done|].
    intros ?. destruct (decide ("conditional_col_dist" = name)); [by left|].
    by right. }
  destruct (dump_items (map_to_list attributes)) as [js|] eqn:Hjs; [|done].
  intros [= <-]. exists js. split; [done|].
  rewrite (dump_items_keys _ _ Hjs).
  split; [apply NoDup_fst_map_to_list|].
  intros name. rewrite <- Hdom. split.
  - intros ([k v] & -> & Hin%elem_of_map_to_list)%list_elem_of_fmap. eauto.
  - intros [v Hv]. apply list_elem_of_fmap. exists (name, v).
    split; [done|]. by apply elem_of_map_to_list.
Qed.

(** X13: after [save] returned, [config.json] holds an object with one
    entry for every attribute of the saved object except [tokenizer] and
    [model], and none for these two. *)
Theorem save_config_keys w w' :
  save self path w = (Ok tt, w') →
  ∃ js,
    files w' !! (path +:+ "/config.json") = Some (FJson (JObj js))
    ∧ NoDup (map fst js)
    ∧ ∀ name,
        name ∈ map fst js
        ↔ is_Some (self !! name) ∧ name ≠ "tokenizer" ∧ name ≠ "model".
Proof.
  intros Hsave.
  destruct (save_inv _ _ _ _ Hsave)
    as (j & llm & sd & Hattrs & _ & _ & _ & _ & Hfiles & _).
  destruct (config_entries _ Hattrs) as (js & -> & Hnd & Hkeys).
  exists js. split; [|done]. rewrite Hfiles.
  rewrite lookup_insert_ne by (apply not_eq_sym, config_model_paths_differ).
  apply lookup_insert_eq.
Qed.

(** X14: saving again into the directory just saved to rewrites the same
    two files: only the warning is new. *)
Theorem save_twice w w1 :
  save self path w = (Ok tt, w1) →
  save self path w1
  = (Ok tt,
     Fs (dirs w1) (files w1)
        (("Directory " +:+ path
          +:+ " already exists and is overwritten now.") :: warnings w1)
        (opened w1)).
Proof.
  intros Hsave.
  destruct (save_inv _ _ _ _ Hsave)
    as (j & llm & sd & Hattrs & Hmodel & Hdir & Hcfg & Hpt & Hfiles & _).
  rewrite (save_into_existing w1 j llm sd) by done.
  do 2 f_equal. rewrite Hfiles.
  apply map_eq. intros name.
  destruct (decide (name = path +:+ "/model.pt")) as [->|Hn1];
    [by rewrite !lookup_insert_eq|].
  rewrite !(lookup_insert_ne _ (path +:+ "/model.pt")) by done.
  destruct (decide (name = path +:+ "/config.json")) as [->|Hn2];
    [by rewrite !lookup_insert_eq|].
  by rewrite !lookup_insert_ne by done.
Qed.

End Saving.

(** ** Loading *)

Section Loading.
Context `{External}.

(** X15: [load_from_dir] on a directory without [config.json] raises
    [FileNotFoundError]; nothing is opened or changed. *)
Theorem load_missing_config path w :
  path ∈ dirs w →
  path +:+ "/config.json" ∉ dirs w →
  files w !! (path +:+ "/config.json") = None →
  load_from_dir path w = (Raise FileNotFoundError, w).
Proof.
  intros Hdir Hcfg Hfile.
  unfold load_from_dir, mbind, ST_bind, os_path_isdir, lift.
  rewrite (bool_decide_eq_true_2 _ Hdir). simpl.
  unfold open_r. by rewrite (bool_decide_eq_false_2 _ Hcfg), Hfile.
Qed.

Lemma assoc_dict_set k k' v d :
  assoc k (dict_set k' v d) = if decide (k = k') then Some v else assoc k d.
Proof.
  induction d as [|[k0 v0] d IH]; simpl.
  - by destruct (decide (k = k')).
  - destruct (decide (k' = k0)) as [->|Hne]; simpl.
    + by destruct (decide (k = k0)).
    + destruct (decide (k = k0)) as [->|]; [|done].
      by rewrite decide_False by done.
Qed.

Lemma assoc_foldl_absent k (l : list (pykey * pyval)) :
  ∀ acc,
    k ∉ map fst l →
    assoc k (foldl (λ d kv, dict_set kv.1 kv.2 d) acc l) = assoc k acc.
Proof.
  induction l as [|[k' v] l IH]; intros acc Hk; simpl; [done|].
  rewrite IH by set_solver. rewrite assoc_dict_set.
  rewrite decide_False; [done|]. set_solver.
Qed.

(** X16: [load_from_dir] on a configuration that is an object without the
    key [llm] raises [KeyError], after it has read [config.json] and before
    a model is created. *)
Theorem load_without_llm path w js :
  path ∈ dirs w →
  path +:+ "/config.json" ∉ dirs w →
  files w !! (path +:+ "/config.json") = Some (FJson (JObj js)) →
  "llm" ∉ map fst js →
  load_from_dir path w
  = (Raise KeyError,
     Fs (dirs w) (files w) (warnings w)
        ((path +:+ "/config.json") :: opened w)).
Proof.
  intros Hdir Hcfg Hfile Hllm.
  unfold load_from_dir, mbind, ST_bind, os_path_isdir, lift.
  rewrite (bool_decide_eq_true_2 _ Hdir). simpl.
  unfold open_r. rewrite (bool_decide_eq_false_2 _ Hcfg), Hfile.
  unfold json_load, subscript. simpl. unfold dict_of_pairs.
  rewrite assoc_foldl_absent; [done|].
  rewrite map_map. intros Hin.
  apply list_elem_of_fmap in Hin as ([k x] & Hk & Hin). simpl in Hk.
  injection Hk as Hk. apply Hllm. apply list_elem_of_fmap.
  by exists (k, x).
Qed.

Lemma init_attributes s pretrained :
  hub s = Some pretrained →
  ∃ great, GReaT (PyStr s) = Ok great
           ∧ great !! "model" = Some (PyModel s pretrained)
           ∧ great !! "tokenizer" = Some (PyTokenizer s).
Proof.
  intros Hhub. unfold GReaT, __init__, from_pretrained_tokenizer,
    from_pretrained_model. rewrite Hhub. simpl. eexists. split; [done|].
  unfold setattr.
  split; by rewrite !lookup_insert_ne, lookup_insert_eq by done.
Qed.

(** The object that [load_from_dir] returns after a [save] that returned,
    and what it did to the file system. *)
Lemma load_after_save_object self path w w' s sd pretrained :
  self !! "llm" = Some (PyStr s) →
  self !! "model" = Some (PyModel s sd) →
  hub s = Some pretrained →
  save self path w = (Ok tt, w') →
  ∃ great,
    load_from_dir path w'
    = (Ok great,
       Fs (dirs w') (files w') (warnings w')
          ((path +:+ "/model.pt") :: (path +:+ "/config.json") :: opened w'))
    ∧ great !! "model" = Some (PyModel s sd)
    ∧ great !! "tokenizer" = Some (PyTokenizer s)
    ∧ ∀ name v,
        name ≠ "model" → name ≠ "tokenizer" → self !! name = Some v →
        ∃ j, to_json (ndarray_to_list v) = Ok j
             ∧ great !! name = Some (of_json j).
Proof.
  intros Hllm Hmodel Hhub Hsave.
  destruct (save_inv _ _ _ _ Hsave)
    as (j & llm & sd' & Hattrs & Hmodel' & Hdir & Hcfg & Hpt & Hfiles & _).
  rewrite Hmodel in Hmodel'. injection Hmodel' as <- <-.
  destruct (config_entries _ _ Hattrs) as (js0 & Hj0 & _ & Hentries).
  destruct (save_attributes_inv _ _ Hattrs)
    as (attributes & js & -> & Hdump & Hnomodel & Hsame & Hccd).
  injection Hj0 as <-.
  assert (Hkeys : map fst js = map fst (map_to_list attributes))
    by by apply dump_items_keys.
  assert (Hnd : NoDup (map fst js))
    by (rewrite Hkeys; apply NoDup_fst_map_to_list).
  assert (Hitem : ∀ k v, attributes !! k = Some v →
            ∃ jv, to_json v = Ok jv ∧ (k, jv) ∈ js).
  { intros k v Hk. apply (dump_items_lookup _ _ _ _ Hdump).
    by apply elem_of_map_to_list. }
  destruct (Hitem "llm" (PyStr s)) as (jllm & Hjllm & Hinllm).
  { by rewrite Hsame. }
  injection Hjllm as <-.
  destruct (init_attributes _ _ Hhub) as (great0 & Hinit & Hmodel0 & Htok0).
  set (kvs := map (λ kj : string * json, (kj.1, of_json kj.2)) js).
  set (great1 := foldl (λ g (kv : string * pyval), setattr g kv.1 kv.2)
                       great0 kvs).
  assert (Hkvs : map fst kvs = map fst js).
  { subst kvs. rewrite map_map. by apply map_ext. }
  assert (Hmodel1 : great1 !! "model" = Some (PyModel s pretrained)).
  { subst great1. rewrite foldl_setattr_notin; [done|].
    rewrite Hkvs. intros Hin%Hentries. naive_solver. }
  assert (Htok1 : great1 !! "tokenizer" = Some (PyTokenizer s)).
  { subst great1. rewrite foldl_setattr_notin; [done|].
    rewrite Hkvs. intros Hin%Hentries. naive_solver. }
  exists (setattr great1 "model" (PyModel s sd)).
  split; [|split; [|split]].
  - unfold load_from_dir, mbind, ST_bind, os_path_isdir, lift.
    rewrite (bool_decide_eq_true_2 _ Hdir). simpl.
    unfold open_r. rewrite (bool_decide_eq_false_2 _ Hcfg), Hfiles.
    rewrite lookup_insert_ne by (apply not_eq_sym, config_model_paths_differ).
    rewrite lookup_insert_eq. unfold json_load.
    rewrite (of_json_attributes _ Hnd). unfold subscript.
    rewrite (assoc_in _ (KStr "llm") (PyStr s)).
    + rewrite Hinit. unfold items.
      replace (map (λ kv : pykey * pyval, (json_key kv.1, kv.2))
                 (map (λ kv : string * json,
                         let (k, x) := kv in (KStr k, of_json x)) js))
        with kvs
        by (subst kvs; rewrite map_map; apply map_ext; by intros [??]).
      fold great1. unfold getattr. rewrite Hmodel1. simpl.
      unfold torch_load, mbind, ST_bind, open_r. simpl.
      rewrite (bool_decide_eq_false_2 _ Hpt), <- Hfiles, Hfiles.
      rewrite lookup_insert_eq. unfold mret, ST_ret, lift, load_state_dict.
      simpl. rewrite String.eqb_refl. by rewrite <- Hfiles.
    + rewrite map_map.
      replace (map (λ x : string * json,
                      (let (k, x0) := x in (KStr k, of_json x0)).1) js)
        with (map KStr (map fst js))
        by (rewrite map_map; apply map_ext; by intros [??]).
      assert (Inj (=) (=) KStr) by (by intros ?? [= ?]).
      by apply (NoDup_fmap_2 KStr).
    + apply list_elem_of_fmap. by exists ("llm", JStr s).
  - unfold setattr. apply lookup_insert_eq.
  - unfold setattr. by rewrite lookup_insert_ne.
  - intros name v Hnm Hnt Hv.
    assert (Hattr : ∃ jv, to_json (ndarray_to_list v) = Ok jv
                          ∧ (name, jv) ∈ js).
    { destruct (decide (name = "conditional_col_dist")) as [->|Hnc].
      - apply Hitem. by rewrite Hccd, Hv.
      - destruct (Hitem name v) as (jv & Hjv & Hin); [by rewrite Hsame|].
        exists jv. by rewrite (to_json_not_ndarray _ _ Hjv). }
    destruct Hattr as (jv & Hjv & Hin). exists jv. split; [done|].
    unfold setattr. rewrite lookup_insert_ne by done. subst great1.
    apply foldl_setattr_in; [by rewrite Hkvs|].
    subst kvs. apply list_elem_of_fmap. by exists (name, jv).
Qed.

End Loading.

(** ** Saving, then loading *)

Section SaveLoad.
Context `{External}.

Variable self : gmap string pyval.
Variables (path : string) (w w' : fs) (s sd pretrained : string).
Hypothesis Hllm : self !! "llm" = Some (PyStr s).
Hypothesis Hmodel : self !! "model" = Some (PyModel s sd).
Hypothesis Hhub : hub s = Some pretrained.
Hypothesis Hsave : save self path w = (Ok tt, w').

(** X17: the object loaded after a save has the model of the saved object,
    with the saved weights in place of the pretrained ones, and a tokenizer
    of the same checkpoint. *)
Theorem load_restores_model :
  ∃ great w'',
    load_from_dir path w' = (Ok great, w'')
    ∧ great !! "model" = self !! "model"
    ∧ great !! "tokenizer" = Some (PyTokenizer s).
Proof using Hllm Hmodel Hhub Hsave.
  destruct (load_after_save_object _ _ _ _ _ _ _ Hllm Hmodel Hhub Hsave)
    as (great & Hload & Hm & Ht & _).
  exists great. eexists. split; [done|]. by rewrite Hm, Hmodel.
Qed.

(** X18: every attribute of the saved object that holds a value JSON holds
    as it is, the checkpoint name and the training options among them, is
    on the loaded object with the same value. *)
Theorem load_restores_attributes :
  ∃ great w'',
    load_from_dir path w' = (Ok great, w'')
    ∧ ∀ name v,
        name ≠ "model" → name ≠ "tokenizer" →
        self !! name = Some v → json_stable v = true →
        great !! name = Some v.
Proof using Hllm Hmodel Hhub Hsave.
  destruct (load_after_save_object _ _ _ _ _ _ _ Hllm Hmodel Hhub Hsave)
    as (great & Hload & _ & _ & Hattrs).
  exists great. eexists. split; [done|].
  intros name v Hnm Hnt Hv Hstable.
  destruct (Hattrs name v Hnm Hnt Hv) as (j & Hj & ->).
  destruct (json_stable_round_trip _ Hstable) as (j' & Hj' & Hback).
  rewrite (json_stable_not_ndarray _ Hstable) in Hj. congruence.
Qed.

(** X19: loading after a save opens [config.json] and then [model.pt], and
    leaves the directories, the files and the warnings as they were. *)
Theorem load_reads_both_files :
  ∃ great,
    load_from_dir path w'
    = (Ok great,
       Fs (dirs w') (files w') (warnings w')
          ((path +:+ "/model.pt") :: (path +:+ "/config.json") :: opened w')).
Proof using Hllm Hmodel Hhub Hsave.
  destruct (load_after_save_object _ _ _ _ _ _ _ Hllm Hmodel Hhub Hsave)
    as (great & Hload & _).
  by exists great.
Qed.

End SaveLoad.

(** ** The attributes that sampling reads *)

Section SamplingReads.
Context `{External}.

Variables self1 self2 : gmap string pyval.
Hypothesis Hsame : ∀ name, name ∈ sampling_reads → self1 !! name = self2 !! name.

Lemma same_getattr name :
  name ∈ sampling_reads → getattr self1 name = getattr self2 name.
Proof using Hsame. intros Hin. unfold getattr. by rewrite (Hsame _ Hin). Qed.

Lemma in_sampling_reads name :
  In name sampling_reads → name ∈ sampling_reads.
Proof. apply list_elem_of_In. Qed.

Ltac same_attributes :=
  repeat match goal with
         | |- context [getattr self1 ?n] =>
             rewrite (same_getattr n)
               by (apply in_sampling_reads; simpl; tauto)
         end.

Lemma same_start_sampler start_col start_col_dist :
  _get_start_sampler self1 start_col start_col_dist
  = _get_start_sampler self2 start_col start_col_dist.
Proof using Hsame. unfold _get_start_sampler. by same_attributes. Qed.

Lemma same_sample_body great_start temperature k max_length df_gen log :
  sample_body self1 great_start temperature k max_length df_gen log
  = sample_body self2 great_start temperature k max_length df_gen log.
Proof using Hsame. unfold sample_body. by same_attributes. Qed.

Lemma same_sample_loop great_start n_samples temperature k max_length fuel :
  ∀ df_gen log,
    sample_loop fuel self1 great_start n_samples temperature k max_length
                df_gen log
    = sample_loop fuel self2 great_start n_samples temperature k max_length
                  df_gen log.
Proof using Hsame.
  induction fuel as [|fuel IH]; intros df_gen log; simpl; [done|].
  rewrite same_sample_body.
  destruct (sample_body self2 great_start temperature k max_length df_gen log)
    as [[df'|e] log']; [|done].
  by rewrite IH.
Qed.

Lemma same_sample fuel n_samples start_col start_col_dist temperature k
    max_length log :
  sample fuel self1 n_samples start_col start_col_dist temperature k
         max_length log
  = sample fuel self2 n_samples start_col start_col_dist temperature k
           max_length log.
Proof using Hsame.
  unfold sample, sample_setup, model_to.
  rewrite same_start_sampler. same_attributes.
  destruct (_ ← _get_start_sampler self2 start_col start_col_dist; _)
    as [[great_start df_gen]|e]; [|done].
  by rewrite same_sample_loop.
Qed.

Lemma same_great_sample_loop temperature max_length prompts :
  ∀ generated_data log,
    great_sample_loop self1 prompts temperature max_length generated_data log
    = great_sample_loop self2 prompts temperature max_length generated_data
                        log.
Proof using Hsame.
  induction prompts as [|prompt rest IH]; intros generated_data log; [done|].
  cbn [great_sample_loop]. same_attributes.
  unfold mbind, ST_bind, lift.
  destruct (getattr self2 "tokenizer") as [tok|]; [|done].
  destruct (call_tokenizer tok prompt) as [start|]; [|done].
  destruct (getattr self2 "model") as [model|]; [|done].
  destruct (generate model (unsqueeze0 start) max_length temperature log)
    as [[gen|e] log']; [|done].
  apply IH.
Qed.

Lemma same_great_sample starting_prompts temperature max_length log :
  great_sample self1 starting_prompts temperature max_length log
  = great_sample self2 starting_prompts temperature max_length log.
Proof using Hsame.
  unfold great_sample, model_to. same_attributes.
  unfold mbind at 1 3. unfold ST_bind, lift.
  destruct (_ ← getattr self2 "model"; _) as [[]|e]; [|done].
  unfold mbind at 1 3. unfold ST_bind.
  by rewrite same_great_sample_loop.
Qed.

End SamplingReads.

(** ** Sampling from a reloaded object *)

Section Reloaded.
Context `{External}.

(** X20: when the column and distribution attributes hold values that JSON
    holds as they are, the object loaded after a save samples as the saved
    object does: [sample] and [great_sample] return the same on both, for
    all arguments and the same generator. *)
Theorem sampling_after_reload self path w w' s sd pretrained :
  self !! "llm" = Some (PyStr s) →
  self !! "model" = Some (PyModel s sd) →
  self !! "tokenizer" = Some (PyTokenizer s) →
  hub s = Some pretrained →
  stable_attributes self ["conditional_col"; "conditional_col_dist";
                          "columns"; "num_cols"] = true →
  save self path w = (Ok tt, w') →
  ∃ great w'',
    load_from_dir path w' = (Ok great, w'')
    ∧ (∀ fuel n_samples start_col start_col_dist temperature k max_length log,
         sample fuel great n_samples start_col start_col_dist temperature k
                max_length log
         = sample fuel self n_samples start_col start_col_dist temperature k
                  max_length log)
    ∧ (∀ starting_prompts temperature max_length log,
         great_sample great starting_prompts temperature max_length log
         = great_sample self starting_prompts temperature max_length log).
Proof.
  intros Hllm Hmodel Htok Hhub Hstable Hsave.
  destruct (load_after_save_object _ _ _ _ _ _ _ Hllm Hmodel Hhub Hsave)
    as (great & Hload & Hm & Ht & Hattrs).
  assert (Hsame : ∀ name, name ∈ sampling_reads →
                          great !! name = self !! name).
  { assert (Hone : ∀ name,
              name ≠ "model" → name ≠ "tokenizer" →
              match self !! name with
              | Some v => json_stable v
              | None => false
              end = true →
              great !! name = self !! name).
    { intros name Hnm Hnt Hs.
      destruct (self !! name) as [v|] eqn:Hv; [|done].
      destruct (Hattrs name v Hnm Hnt Hv) as (j & Hj & ->).
      destruct (json_stable_round_trip _ Hs) as (j' & Hj' & Hback).
      rewrite (json_stable_not_ndarray _ Hs) in Hj. congruence. }
    unfold stable_attributes in Hstable. simpl in Hstable.
    apply andb_prop in Hstable as [H1 Hstable].
    apply andb_prop in Hstable as [H2 Hstable].
    apply andb_prop in Hstable as [H3 Hstable].
    apply andb_prop in Hstable as [H4 _].
    intros name Hin%list_elem_of_In. simpl in Hin.
    destruct Hin as [<-|[<-|[<-|[<-|[<-|[<-|[]]]]]]].
    - by apply Hone.
    - by apply Hone.
    - by rewrite Ht, Htok.
    - by apply Hone.
    - by rewrite Hm, Hmodel.
    - by apply Hone. }
  exists great. eexists. split; [done|]. split.
  - intros. by apply same_sample.
  - intros. by apply same_great_sample.
Qed.

End Reloaded.

(** ** Loading fine-tuned weights *)

Section Finetuned.
Context `{External}.

(** X21: [load_finetuned_model] on the weights file that a [save] wrote
    gives an object of the same checkpoint the saved weights; it opens that
    one file and leaves every other attribute as it was. *)
Theorem finetuned_weights_from_save self other path w w' s sd sd0 :
  self !! "model" = Some (PyModel s sd) →
  other !! "model" = Some (PyModel s sd0) →
  save self path w = (Ok tt, w') →
  load_finetuned_model (path +:+ "/model.pt") (w', other)
  = (Ok tt,
     (Fs (dirs w') (files w') (warnings w')
         ((path +:+ "/model.pt") :: opened w'),
      setattr other "model" (PyModel s sd))).
Proof.
  intros Hmodel Hother Hsave.
  destruct (save_inv _ _ _ _ Hsave)
    as (j & llm & sd' & _ & Hmodel' & _ & _ & Hpt & Hfiles & _).
  rewrite Hmodel in Hmodel'. injection Hmodel' as <- <-.
  unfold load_finetuned_model, getattr. rewrite Hother. simpl.
  unfold torch_load, mbind, ST_bind, open_r.
  rewrite (bool_decide_eq_false_2 _ Hpt).
  assert (Hfile : files w' !! (path +:+ "/model.pt") = Some (FTorch s sd))
    by (rewrite Hfiles; apply lookup_insert_eq).
  rewrite Hfile. simpl. unfold load_state_dict. simpl.
  by rewrite String.eqb_refl.
Qed.


End Finetuned.

(** * The further properties on the worked example *)

Lemma sample_exactly_one_raises_witness :
  @sample Stub.good 5 Stub.fitted 2 (PyStr "sex") PyNone 0.7 3 100 []
  = Some (Raise ValueError, []).
Proof. apply (@sample_exactly_one_raises Stub.good). reflexivity. Defined.

Lemma start_sampler_rejects_types_witness :
  _get_start_sampler Stub.fitted (PyStr "sex") (PyArray [1 # 1; 2 # 1])
  = Raise AssertionError
  ∧ _get_start_sampler Stub.fitted (PyInt 3) (PyList [PyFloat (1 # 1)])
    = Raise AssertionError.
Proof. split; apply start_sampler_rejects_types; reflexivity. Defined.

Lemma start_sampler_uses_arguments_witness :
  _get_start_sampler Stub.fitted (PyStr "age")
    (PyList [PyFloat (30 # 1); PyFloat (40 # 1)])
  = Ok (ContinuousStart (PyTokenizer "distilgpt2") (PyStr "age")
          (PyList [PyFloat (30 # 1); PyFloat (40 # 1)])).
Proof.
  apply (start_sampler_uses_arguments Stub.fitted (PyTokenizer "distilgpt2")
           eq_refl "age" (PyList [PyFloat (30 # 1); PyFloat (40 # 1)]));
    reflexivity.
Defined.

Lemma sample_body_appends_valid_rows_witness :
  @sample_body Stub.good Stub.fitted (RandomStart PyNone PyNone) 0.7 2 100
    (Frame [PyStr "age"; PyStr "sex"; PyStr "income"]
           [Stub.row 30 "M" 50000]) []
  = (Ok (Frame [PyStr "age"; PyStr "sex"; PyStr "income"]
           ([Stub.row 30 "M" 50000]
            ++ List.filter
                 (@valid_row Stub.good
                    [PyStr "age"; PyStr "sex"; PyStr "income"]
                    [PyStr "age"; PyStr "income"])
                 (@decoded_batch Stub.good
                    (PyModel "distilgpt2" "fine-tuned")
                    (PyTokenizer "distilgpt2") (RandomStart PyNone PyNone)
                    0.7 2 100 [PyStr "age"; PyStr "sex"; PyStr "income"] 0))),
     [] ++ [@get_start_tokens Stub.good 0 (RandomStart PyNone PyNone) 2]).
Proof.
  apply (@sample_body_appends_valid_rows Stub.good Stub.fitted
           [PyStr "age"; PyStr "sex"; PyStr "income"]
           [PyStr "age"; PyStr "income"]
           (PyTokenizer "distilgpt2") (PyModel "distilgpt2" "fine-tuned")
           eq_refl eq_refl eq_refl eq_refl eq_refl).
  reflexivity.
Defined.

Lemma sample_first_valid_rows_witness :
  ∃ calls,
    (∀ fuel, (calls ≤ fuel)%nat →
       @sample Stub.good fuel Stub.fitted 4 (PyStr "") PyNone 0.7 3 100 []
       = Some (Ok (Frame [PyStr "age"; PyStr "sex"; PyStr "income"]
                     (firstn (Z.to_nat 4)
                        (@valid_generated Stub.good
                           (PyModel "distilgpt2" "fine-tuned")
                           (PyTokenizer "distilgpt2")
                           (CategoricalStart (PyTokenizer "distilgpt2")
                              (PyStr "sex")
                              (PyDict [(KStr "M", PyFloat (1 # 2));
                                       (KStr "F", PyFloat (1 # 2))]))
                           0.7 3 100
                           [PyStr "age"; PyStr "sex"; PyStr "income"]
                           [PyStr "age"; PyStr "income"] 0 calls))),
               [] ++ @start_inputs Stub.good
                       (CategoricalStart (PyTokenizer "distilgpt2")
                          (PyStr "sex")
                          (PyDict [(KStr "M", PyFloat (1 # 2));
                                   (KStr "F", PyFloat (1 # 2))]))
                       3 0 calls))
    ∧ (4 ≤ Z.of_nat (List.length
         (@valid_generated Stub.good
            (PyModel "distilgpt2" "fine-tuned") (PyTokenizer "distilgpt2")
            (CategoricalStart (PyTokenizer "distilgpt2") (PyStr "sex")
               (PyDict [(KStr "M", PyFloat (1 # 2));
                        (KStr "F", PyFloat (1 # 2))]))
            0.7 3 100 [PyStr "age"; PyStr "sex"; PyStr "income"]
            [PyStr "age"; PyStr "income"] 0 calls)))%Z
    ∧ (∀ i, (i < calls)%nat →
            (Z.of_nat (List.length
               (@valid_generated Stub.good
                  (PyModel "distilgpt2" "fine-tuned")
                  (PyTokenizer "distilgpt2")
                  (CategoricalStart (PyTokenizer "distilgpt2") (PyStr "sex")
                     (PyDict [(KStr "M", PyFloat (1 # 2));
                              (KStr "F", PyFloat (1 # 2))]))
                  0.7 3 100 [PyStr "age"; PyStr "sex"; PyStr "income"]
                  [PyStr "age"; PyStr "income"] 0 i))
             < 4)%Z).
Proof.
  apply (@sample_first_valid_rows Stub.good Stub.fitted
           [PyStr "age"; PyStr "sex"; PyStr "income"]
           [PyStr "age"; PyStr "income"]
           (PyTokenizer "distilgpt2") (PyModel "distilgpt2" "fine-tuned")
           eq_refl eq_refl eq_refl eq_refl eq_refl eq_refl
           4%Z (PyStr "") PyNone
           (CategoricalStart (PyTokenizer "distilgpt2") (PyStr "sex")
              (PyDict [(KStr "M", PyFloat (1 # 2)); (KStr "F", PyFloat (1 # 2))]))
           0.7 3%Z 100%Z [] eq_refl).
  exists 2. vm_compute. discriminate.
Defined.

(** In the example the quota of four rows is met by the second batch of
    three. *)
Example sample_four_rows_two_calls :
  match @sample Stub.good 2 Stub.fitted 4 (PyStr "") PyNone 0.7 3 100 [] with
  | Some (Ok df, log) => Some (List.length (df_rows df), List.length log)
  | _ => None
  end = Some (4, 2)
  ∧ @sample Stub.good 1 Stub.fitted 4 (PyStr "") PyNone 0.7 3 100 [] = None.
Proof. split; vm_compute; reflexivity. Qed.

Lemma fit_rejected_after_columns_witness :
  @fit Stub.good (inl Stub.people) PyNone (PyStr "height") (PyBool false)
       Stub.fitted
  = (Raise AssertionError, @with_columns Stub.good Stub.people Stub.fitted)
  ∧ @fit Stub.good (inl Stub.people) PyNone (PyInt 1) (PyBool false)
         Stub.fitted
    = (Raise AssertionError, @with_columns Stub.good Stub.people Stub.fitted).
Proof.
  split; apply (@fit_rejected_after_columns Stub.good); reflexivity.
Defined.

Lemma fit_no_columns_witness :
  @fit Stub.good (inl Stub.no_columns) PyNone PyNone (PyBool false) Stub.fresh
  = (Raise IndexError, @with_columns Stub.good Stub.no_columns Stub.fresh).
Proof. apply (@fit_no_columns Stub.good); reflexivity. Defined.

Lemma fit_establishes_witness :
  ∃ col,
    (if supplied_col PyNone then Ok PyNone
     else last_column Stub.people) = Ok col
    ∧ (Stub.fit_on Stub.people PyNone).2 !! "conditional_col" = Some col
    ∧ (Stub.fit_on Stub.people PyNone).2 !! "conditional_col_dist"
      = Some (@_get_column_distribution Stub.good Stub.people col)
    ∧ (Stub.fit_on Stub.people PyNone).2 !! "columns"
      = Some (PyList (df_columns Stub.people))
    ∧ (Stub.fit_on Stub.people PyNone).2 !! "num_cols"
      = Some (PyList (List.filter (@is_number_dtype Stub.good Stub.people)
                                  (df_columns Stub.people)))
    ∧ ∀ name,
        name ∉ ["columns"; "num_cols"; "conditional_col";
                "conditional_col_dist"; "model"] →
        (Stub.fit_on Stub.people PyNone).2 !! name = Stub.fresh !! name.
Proof.
  apply (@fit_establishes Stub.good Stub.people (inl Stub.people) PyNone
           PyNone (PyBool false) Stub.fresh).
  - reflexivity.
  - vm_compute. exact eq_refl.
Defined.

(** Without a conditional column the last column, [income], is established,
    with the list of its observed values. *)
Example fit_default_conditional_column :
  (Stub.fit_on Stub.people PyNone).2 !! "conditional_col"
  = Some (PyStr "income")
  ∧ (Stub.fit_on Stub.people PyNone).2 !! "conditional_col_dist"
    = Some (PyList [PyFloat 50000; PyFloat 10000]).
Proof. split; vm_compute; reflexivity. Qed.

Lemma people_columns_distinct : NoDup (df_columns Stub.people).
Proof.
  repeat (apply NoDup_cons; split;
          [rewrite ?elem_of_cons, elem_of_nil; intros H;
           repeat destruct H as [H|H]; try discriminate H; exact H|]).
  apply NoDup_nil_2.
Qed.



Lemma save_onto_file_witness :
  @save Stub.fitted "out" Stub.out_is_file
  = (Raise FileExistsError, Stub.out_is_file).
Proof.
  apply (save_onto_file Stub.fitted "out" Stub.out_is_file).
  - intros Hin. vm_compute in Hin. discriminate.
  - exists FIncomplete. reflexivity.
Defined.

Lemma save_failed_dump_witness :
  @save Stub.unserialisable "out" Stub.out_exists
  = (Raise TypeError,
     Fs {["out"]} (<["out/config.json" := FIncomplete]> ∅)
        ["Directory out already exists and is overwritten now."] []).
Proof.
  apply (save_failed_dump Stub.unserialisable "out" Stub.out_exists TypeError).
  - vm_compute. reflexivity.
  - intros Hin. vm_compute in Hin. discriminate.
  - vm_compute. reflexivity.
Defined.

Lemma save_config_keys_witness :
  ∃ js,
    files Stub.saved !! "out/config.json" = Some (FJson (JObj js))
    ∧ NoDup (map fst js)
    ∧ ∀ name,
        name ∈ map fst js
        ↔ is_Some (Stub.fitted !! name)
          ∧ name ≠ "tokenizer" ∧ name ≠ "model".
Proof.
  apply (save_config_keys Stub.fitted "out" Stub.empty_fs Stub.saved).
  vm_compute. reflexivity.
Defined.

Lemma save_twice_witness :
  @save Stub.fitted "out" Stub.saved
  = (Ok tt,
     Fs (dirs Stub.saved) (files Stub.saved)
        ["Directory out already exists and is overwritten now."] []).
Proof.
  apply (save_twice Stub.fitted "out" Stub.empty_fs Stub.saved).
  vm_compute. reflexivity.
Defined.

Lemma load_missing_config_witness :
  @load_from_dir Stub.good "out" Stub.out_exists
  = (Raise FileNotFoundError, Stub.out_exists).
Proof.
  apply (@load_missing_config Stub.good "out" Stub.out_exists).
  - vm_compute. reflexivity.
  - intros Hin. vm_compute in Hin. discriminate.
  - reflexivity.
Defined.

Lemma load_without_llm_witness :
  @load_from_dir Stub.good "out" Stub.no_llm
  = (Raise KeyError,
     Fs (dirs Stub.no_llm) (files Stub.no_llm) [] ["out/config.json"]).
Proof.
  apply (@load_without_llm Stub.good "out" Stub.no_llm [("epochs", JInt 1)]).
  - vm_compute. reflexivity.
  - intros Hin. vm_compute in Hin. discriminate.
  - reflexivity.
  - simpl. rewrite elem_of_cons, elem_of_nil. intros [Heq|[]]. discriminate.
Defined.

Lemma saved_example :
  @save Stub.fitted "out" Stub.empty_fs = (Ok tt, Stub.saved).
Proof. vm_compute. reflexivity. Defined.

Lemma load_restores_model_witness :
  ∃ great w'',
    @load_from_dir Stub.good "out" Stub.saved = (Ok great, w'')
    ∧ great !! "model" = Stub.fitted !! "model"
    ∧ great !! "tokenizer" = Some (PyTokenizer "distilgpt2").
Proof.
  exact (@load_restores_model Stub.good Stub.fitted "out" Stub.empty_fs
           Stub.saved "distilgpt2" "fine-tuned" "pretrained"
           eq_refl eq_refl eq_refl saved_example).
Defined.

Lemma load_restores_attributes_witness :
  ∃ great w'',
    @load_from_dir Stub.good "out" Stub.saved = (Ok great, w'')
    ∧ ∀ name v,
        name ≠ "model" → name ≠ "tokenizer" →
        Stub.fitted !! name = Some v → json_stable v = true →
        great !! name = Some v.
Proof.
  exact (@load_restores_attributes Stub.good Stub.fitted "out" Stub.empty_fs
           Stub.saved "distilgpt2" "fine-tuned" "pretrained"
           eq_refl eq_refl eq_refl saved_example).
Defined.

Lemma load_reads_both_files_witness :
  ∃ great,
    @load_from_dir Stub.good "out" Stub.saved
    = (Ok great,
       Fs (dirs Stub.saved) (files Stub.saved) (warnings Stub.saved)
          ("out/model.pt" :: "out/config.json" :: opened Stub.saved)).
Proof.
  exact (@load_reads_both_files Stub.good Stub.fitted "out" Stub.empty_fs
           Stub.saved "distilgpt2" "fine-tuned" "pretrained"
           eq_refl eq_refl eq_refl saved_example).
Defined.

Lemma sampling_after_reload_witness :
  ∃ great w'',
    @load_from_dir Stub.good "out" Stub.saved = (Ok great, w'')
    ∧ (∀ fuel n_samples start_col start_col_dist temperature k max_length log,
         @sample Stub.good fuel great n_samples start_col start_col_dist
                 temperature k max_length log
         = @sample Stub.good fuel Stub.fitted n_samples start_col
                   start_col_dist temperature k max_length log)
    ∧ (∀ starting_prompts temperature max_length log,
         @great_sample Stub.good great starting_prompts temperature
                       max_length log
         = @great_sample Stub.good Stub.fitted starting_prompts temperature
                         max_length log).
Proof.
  exact (@sampling_after_reload Stub.good Stub.fitted "out" Stub.empty_fs
           Stub.saved "distilgpt2" "fine-tuned" "pretrained"
           eq_refl eq_refl eq_refl eq_refl eq_refl saved_example).
Defined.

Lemma finetuned_weights_from_save_witness :
  load_finetuned_model "out/model.pt" (Stub.saved, Stub.fresh)
  = (Ok tt,
     (Fs (dirs Stub.saved) (files Stub.saved) (warnings Stub.saved)
         ("out/model.pt" :: opened Stub.saved),
      setattr Stub.fresh "model" (PyModel "distilgpt2" "fine-tuned"))).
Proof.
  exact (finetuned_weights_from_save Stub.fitted Stub.fresh "out"
           Stub.empty_fs Stub.saved "distilgpt2" "fine-tuned" "pretrained"
           eq_refl eq_refl saved_example).
Defined.

